(** * The API gateway's routing core

    A shallow embedding of

    - [routeRequest] and [discoverService] of
      [Practicals/Web303_p2/api-gateway/main.go] (the Consul-backed
      reverse-proxy gateway), and
    - [handleGRPCError] of
      [Practicals/Web303_p6/api-gateway/handlers/handlers.go]
      (the gRPC-to-HTTP error translator),

    together with the properties the specification states about them.

    Go strings are byte strings: they are modelled by [string] (a list of
    [ascii], one per byte).  Go's [(value, error)] results are modelled by
    [result]; an [error] is represented by the text of its [Error()]. *)

From Stdlib Require Import String Ascii List ZArith Lia Bool DecimalString.
Import ListNotations.
Open Scope list_scope.
Open Scope string_scope.

(* ------------------------------------------------------------------ *)
(** ** Go values shared by both gateways *)

(** A Go [error], represented by its message. *)
Definition error := string.

(** A Go [(T, error)] result: [Ok v] is [(v, nil)], [Err e] is [(_, e)]. *)
Inductive result (A : Type) : Type :=
| Ok (a : A)
| Err (e : error).
Arguments Ok {A} a.
Arguments Err {A} e.

Definition is_Err {A} (r : result A) : bool :=
  match r with Ok _ => false | Err _ => true end.

(* ------------------------------------------------------------------ *)
(** ** The [strings] package, as far as the gateway uses it *)

Module strings.

(** [strip p s] is [Some t] when [s = p ++ t], and [None] otherwise. *)
Fixpoint strip (p s : string) : option string :=
  match p with
  | EmptyString => Some s
  | String a p' =>
      match s with
      | EmptyString => None
      | String b s' => if Ascii.eqb a b then strip p' s' else None
      end
  end.

(** [strings.HasPrefix(s, prefix)]. *)
Definition HasPrefix (s prefix : string) : bool :=
  match strip prefix s with Some _ => true | None => false end.

(** [strings.TrimPrefix(s, prefix)]: [s] without the leading [prefix],
    or [s] itself when it does not start with [prefix]. *)
Definition TrimPrefix (s prefix : string) : string :=
  match strip prefix s with Some t => t | None => s end.

(** [strings.Split(s, sep)] for a one-byte separator, which is how the
    gateway calls it ([sep = "/"]): the pieces of [s] between consecutive
    separators; [n] separators give [n + 1] pieces, and the empty string
    gives the one empty piece. *)
Fixpoint Split (s : string) (sep : ascii) : list string :=
  match s with
  | EmptyString => [EmptyString]
  | String c s' =>
      if Ascii.eqb c sep then EmptyString :: Split s' sep
      else match Split s' sep with
           | h :: t => String c h :: t
           | [] => [String c EmptyString]
           end
  end.

(** [strings.Join(elems, sep)]. *)
Fixpoint Join (elems : list string) (sep : string) : string :=
  match elems with
  | [] => EmptyString
  | [x] => x
  | x :: rest => x ++ sep ++ Join rest sep
  end.

(** [free sep s]: the byte [sep] does not occur in [s]. *)
Fixpoint free (sep : ascii) (s : string) : bool :=
  match s with
  | EmptyString => true
  | String c s' => negb (Ascii.eqb c sep) && free sep s'
  end.


End strings.

(** The separator of URL path segments. *)
Definition slash : ascii := "/"%char.

(** A path segment: a string without ["/"]. *)
Definition no_slash (s : string) : bool := strings.free slash s.


(* ------------------------------------------------------------------ *)
(** ** [net/url] and [net/http] values *)

Module url.

(** The fields of Go's [url.URL] that a request or a proxy target
    carries. *)
Record URL : Type := mkURL {
  Scheme : string;
  Host : string;
  Path : string;
  RawPath : string;
  RawQuery : string;
  Fragment : string
}.

End url.

Module http.

(** [http.Header]: a multi-map from header names to values. *)
Definition Header := list (string * list string).

(** The inbound [*http.Request], as far as a handler can observe it. *)
Record Request : Type := mkRequest {
  Method : string;
  URL : url.URL;
  Hdr : Header;
  Body : string
}.

(** What a handler has written to its [http.ResponseWriter] when it
    returns: the status line, the headers and the body. *)
Record Response : Type := mkResponse {
  StatusCode : Z;
  RespHdr : Header;
  RespBody : string
}.

Definition StatusBadRequest : Z := 400.
Definition StatusUnauthorized : Z := 401.
Definition StatusForbidden : Z := 403.
Definition StatusNotFound : Z := 404.
Definition StatusConflict : Z := 409.
Definition StatusPreconditionFailed : Z := 412.
Definition StatusInternalServerError : Z := 500.
Definition StatusNotImplemented : Z := 501.
Definition StatusBadGateway : Z := 502.
Definition StatusServiceUnavailable : Z := 503.

(** The line feed that [fmt.Fprintln] appends. *)
Definition LF : string := String (ascii_of_nat 10) EmptyString.

(** [http.Error(w, error, code)] on a fresh [ResponseWriter]: a plain-text
    reply with status [code] whose body is the message followed by a
    line feed. *)
Definition Error (msg : string) (code : Z) : Response :=
  {| StatusCode := code;
     RespHdr := [("Content-Type", ["text/plain; charset=utf-8"]);
                 ("X-Content-Type-Options", ["nosniff"])];
     RespBody := msg ++ LF |}.

(** The assignment [r.URL.Path = p]: every other field of the request
    is the one it was. *)
Definition set_URL_Path (r : Request) (p : string) : Request :=
  {| Method := Method r;
     URL := {| url.Scheme := url.Scheme (URL r);
               url.Host := url.Host (URL r);
               url.Path := p;
               url.RawPath := url.RawPath (URL r);
               url.RawQuery := url.RawQuery (URL r);
               url.Fragment := url.Fragment (URL r) |};
     Hdr := Hdr r;
     Body := Body r |}.

End http.

(* ------------------------------------------------------------------ *)
(** ** [net/textproto] and [net/http/httputil], as the proxy uses them *)

Module textproto.

Definition between (lo hi : nat) (c : ascii) : bool :=
  (lo <=? nat_of_ascii c)%nat && (nat_of_ascii c <=? hi)%nat.

Definition isUpper (c : ascii) : bool := between 65 90 c.
Definition isLower (c : ascii) : bool := between 97 122 c.
Definition isDigit (c : ascii) : bool := between 48 57 c.
Definition toUpper (c : ascii) : ascii := ascii_of_nat (nat_of_ascii c - 32).
Definition toLower (c : ascii) : ascii := ascii_of_nat (nat_of_ascii c + 32).

(** Blank, tab, line feed and carriage return. *)
Definition isASCIISpace (c : ascii) : bool :=
  existsb (Nat.eqb (nat_of_ascii c)) [32; 9; 10; 13]%nat.

Fixpoint trimLeft (s : string) : string :=
  match s with
  | EmptyString => EmptyString
  | String c s' => if isASCIISpace c then trimLeft s' else s
  end.

Fixpoint trimRight (s : string) : string :=
  match s with
  | EmptyString => EmptyString
  | String c s' =>
      match trimRight s' with
      | EmptyString => if isASCIISpace c then EmptyString
                       else String c EmptyString
      | t => String c t
      end
  end.

(** [textproto.TrimString]: [s] without leading and trailing ASCII
    space. *)
Definition TrimString (s : string) : string := trimRight (trimLeft s).

(** The bytes of a header field name: letters, digits and the token
    punctuation. *)
Definition validHeaderFieldByte (c : ascii) : bool :=
  isUpper c || isLower c || isDigit c
  || negb (strings.free c "!#$%&'*+-.^_`|~").

Fixpoint all_valid (s : string) : bool :=
  match s with
  | EmptyString => true
  | String c s' => validHeaderFieldByte c && all_valid s'
  end.

(** Upper case for the first letter and for a letter after a hyphen,
    lower case for the other letters. *)
Fixpoint canonicalize (upper : bool) (s : string) : string :=
  match s with
  | EmptyString => EmptyString
  | String c s' =>
      let c' := if upper && isLower c then toUpper c
                else if negb upper && isUpper c then toLower c
                else c in
      String c' (canonicalize (Ascii.eqb c' "-") s')
  end.

(** [textproto.CanonicalMIMEHeaderKey]: the canonical form of a header
    name; a name with a byte that no field name may hold is returned as
    it is. *)
Definition CanonicalMIMEHeaderKey (s : string) : string :=
  if all_valid s then canonicalize true s else s.

End textproto.

Module httputil.

(** [hopHeaders]: the hop-by-hop headers that a proxy does not pass
    on. *)
Definition hopHeaders : list string :=
  ["Connection"; "Proxy-Connection"; "Keep-Alive"; "Proxy-Authenticate";
   "Proxy-Authorization"; "Te"; "Trailer"; "Transfer-Encoding"; "Upgrade"].

(** [h.Del(key)]. *)
Definition Del (h : http.Header) (key : string) : http.Header :=
  filter (fun kv =>
            negb (String.eqb (fst kv) (textproto.CanonicalMIMEHeaderKey key)))
         h.

(** [h[key]]: the values stored under [key]. *)
Definition values (h : http.Header) (key : string) : list string :=
  flat_map (fun kv => if String.eqb (fst kv) key then snd kv else []) h.

(** [removeHopByHopHeaders]: drops the headers named in the
    [Connection] header, then the known hop-by-hop headers. *)
Definition removeHopByHopHeaders (h : http.Header) : http.Header :=
  let named :=
    flat_map (fun f => map textproto.TrimString (strings.Split f ","%char))
             (values h "Connection") in
  let h1 :=
    fold_left (fun acc sf =>
                 if String.eqb sf EmptyString then acc else Del acc sf)
              named h in
  fold_left Del hopHeaders h1.

(** What [ReverseProxy.ServeHTTP] writes to the caller for the response
    [resp] of the backend: the status and the body of [resp], and its
    headers without the hop-by-hop ones.  A 101 Switching Protocols is
    not treated so: the proxy hands the connection over and the
    response goes out with all its headers. *)
Definition relay (resp : http.Response) : http.Response :=
  if (http.StatusCode resp =? 101)%Z then resp
  else {| http.StatusCode := http.StatusCode resp;
          http.RespHdr := removeHopByHopHeaders (http.RespHdr resp);
          http.RespBody := http.RespBody resp |}.

End httputil.

(* ------------------------------------------------------------------ *)
(** ** The Consul registry, as seen through [consulapi] *)

Module consulapi.

(** [consulapi.AgentService]: one registered instance.  [Name] is the
    field Go calls [Service] (the service name). *)
Record AgentService : Type := mkAgentService {
  ID : string;
  Name : string;
  Tags : list string;
  Address : string;
  Port : Z
}.

(** [consulapi.ServiceEntry]: an instance together with its health;
    [healthy] summarises the entry's checks (all of them passing). *)
Record ServiceEntry : Type := mkServiceEntry {
  Service : AgentService;
  healthy : bool
}.

(** The state of the registry at the time of a request:
    - [config_err]: the error of [NewClient(DefaultConfig())], if any;
    - [agent_err name]: the error of a health query for [name], if the
      agent cannot answer it;
    - [catalog]: the registered instances, in the order in which the
      agent lists them. *)
Record Registry : Type := mkRegistry {
  config_err : option error;
  agent_err : string -> option error;
  catalog : list ServiceEntry
}.

(** The filter of [Health().Service(service, tag, passingOnly, nil)]:
    instances registered under [service], carrying [tag] unless it is
    empty, and healthy when [passingOnly] is set. *)
Definition selected (service tag : string) (passingOnly : bool)
           (e : ServiceEntry) : bool :=
  String.eqb (Name (Service e)) service
  && (String.eqb tag EmptyString
      || existsb (String.eqb tag) (Tags (Service e)))
  && (negb passingOnly || healthy e).

(** [consulapi.NewClient(consulapi.DefaultConfig())]. *)
Definition NewClient (reg : Registry) : result unit :=
  match config_err reg with
  | Some e => Err e
  | None => Ok tt
  end.

(** [client.Health().Service(service, tag, passingOnly, nil)]. *)
Definition Health_Service (reg : Registry) (service tag : string)
           (passingOnly : bool) : result (list ServiceEntry) :=
  match agent_err reg service with
  | Some e => Err e
  | None => Ok (filter (selected service tag passingOnly) (catalog reg))
  end.

End consulapi.

(* ------------------------------------------------------------------ *)
(** ** Effects of a handler *)

(** An argument of a [log.Printf] call. *)
Inductive LogArg : Type :=
| ArgStr (s : string)
| ArgInt (n : Z)
| ArgURL (u : url.URL)
| ArgErr (e : error).

(** One [log.Printf(format, args...)] call. *)
Record LogLine : Type := mkLogLine {
  format : string;
  args : list LogArg
}.

(** The calls a handler makes to the world outside it, in order. *)
Inductive Event : Type :=
| EvLog (l : LogLine)
| EvNewClient
| EvHealthService (service tag : string) (passingOnly : bool)
| EvServeHTTP (target : url.URL) (r : http.Request).

(** What comes of the round trip that the reverse proxy makes for a
    forwarded request: the backend answers with a response, which the
    proxy passes on, or the proxy's error handler is called, because
    the transport failed or a protocol switch was refused. *)
Inductive RoundTripResult : Type :=
| Relayed (resp : http.Response)
| TransportError (e : error).

(** [fmt.Sprintf("%d", n)]. *)
Definition itoa (n : Z) : string := NilZero.string_of_int (Z.to_int n).


(* ------------------------------------------------------------------ *)
(** ** The p6 gateway: [api-gateway/handlers/handlers.go] *)

Module codes.

(** [codes.Code] is a [uint32]; the named codes are gRPC's. *)
Definition Code := N.

Definition OK : Code := 0%N.
Definition Canceled : Code := 1%N.
Definition Unknown : Code := 2%N.
Definition InvalidArgument : Code := 3%N.
Definition DeadlineExceeded : Code := 4%N.
Definition NotFound : Code := 5%N.
Definition AlreadyExists : Code := 6%N.
Definition PermissionDenied : Code := 7%N.
Definition ResourceExhausted : Code := 8%N.
Definition FailedPrecondition : Code := 9%N.
Definition Aborted : Code := 10%N.
Definition OutOfRange : Code := 11%N.
Definition Unimplemented : Code := 12%N.
Definition Internal : Code := 13%N.
Definition Unavailable : Code := 14%N.
Definition DataLoss : Code := 15%N.
Definition Unauthenticated : Code := 16%N.

End codes.

Module status.

(** A Go [error] value as [status.FromError] tells them apart: no error,
    an error carrying a gRPC status, or any other error with its text. *)
Inductive GoError : Type :=
| nil_error
| grpc_error (c : codes.Code) (msg : string)
| other_error (text : string).

(** A [status.Status]; a pointer to it is an option, [None] being nil. *)
Record Status : Type := mkStatus {
  code : codes.Code;
  message : string
}.

(** The method [Code()] of a status: [codes.OK] on a nil status. *)
Definition Code (st : option Status) : codes.Code :=
  match st with
  | Some s => code s
  | None => codes.OK
  end.

(** The method [Message()] of a status: empty on a nil status. *)
Definition Message (st : option Status) : string :=
  match st with
  | Some s => message s
  | None => EmptyString
  end.

(** [status.FromError(err)]: the status of a gRPC error; a nil status
    for a nil error; and, flagged as not-ok, a status of code [Unknown]
    with the error's text for anything else. *)
Definition FromError (err : GoError) : option Status * bool :=
  match err with
  | nil_error => (None, true)
  | grpc_error c msg => (Some {| code := c; message := msg |}, true)
  | other_error text =>
      (Some {| code := codes.Unknown; message := text |}, false)
  end.

End status.

Module handlers.

(** [handleGRPCError]: translates gRPC status codes to HTTP error
    responses. *)
Definition handleGRPCError (err : status.GoError) : http.Response :=
  let (st, ok) := status.FromError err in
  if negb ok then
    (* Not a gRPC error, return generic internal server error *)
    http.Error "internal server error" http.StatusInternalServerError
  else
    (* Map gRPC status codes to HTTP status codes *)
    let c := status.Code st in
    let httpStatus :=
      if N.eqb c codes.NotFound then http.StatusNotFound
      else if N.eqb c codes.InvalidArgument then http.StatusBadRequest
      else if N.eqb c codes.AlreadyExists then http.StatusConflict
      else if N.eqb c codes.PermissionDenied then http.StatusForbidden
      else if N.eqb c codes.Unauthenticated then http.StatusUnauthorized
      else if N.eqb c codes.FailedPrecondition
           then http.StatusPreconditionFailed
      else if N.eqb c codes.Unimplemented then http.StatusNotImplemented
      else if N.eqb c codes.Unavailable then http.StatusServiceUnavailable
      else http.StatusInternalServerError in
    http.Error (status.Message st) httpStatus.

(** The translation table of the specification: gRPC code to HTTP
    status; a code that is not listed is a 500. *)
Definition status_table : list (codes.Code * Z) :=
  [ (codes.NotFound, 404%Z);
    (codes.InvalidArgument, 400%Z);
    (codes.AlreadyExists, 409%Z);
    (codes.PermissionDenied, 403%Z);
    (codes.Unauthenticated, 401%Z);
    (codes.FailedPrecondition, 412%Z);
    (codes.Unimplemented, 501%Z);
    (codes.Unavailable, 503%Z) ].

Definition table_status (c : codes.Code) : Z :=
  match find (fun row => N.eqb (fst row) c) status_table with
  | Some row => snd row
  | None => 500%Z
  end.

End handlers.

(* ------------------------------------------------------------------ *)
(** ** The Consul agent, as the services use it *)

Module agent.

(** [consulapi.AgentServiceCheck]: an HTTP health check. *)
Record AgentServiceCheck : Type := mkCheck {
  HTTP : string;
  Interval : string;
  Timeout : string
}.

(** [consulapi.AgentServiceRegistration]. *)
Record AgentServiceRegistration : Type := mkRegistration {
  ID : string;
  Name : string;
  Port : Z;
  Address : string;
  Check : option AgentServiceCheck
}.

(** The instance registered under the service ID [id]. *)
Definition has_ID (id : string) (e : consulapi.ServiceEntry) : bool :=
  String.eqb (consulapi.ID (consulapi.Service e)) id.

(** The catalog entry of a registration.  A service without a check is
    healthy; one with a check keeps the status its check had if the ID
    was registered before, and is critical, hence not healthy, until
    its first probe otherwise. *)
Definition entry_of (old : option consulapi.ServiceEntry)
           (r : AgentServiceRegistration) : consulapi.ServiceEntry :=
  {| consulapi.Service :=
       {| consulapi.ID := ID r;
          consulapi.Name := Name r;
          consulapi.Tags := [];
          consulapi.Address := Address r;
          consulapi.Port := Port r |};
     consulapi.healthy :=
       match Check r, old with
       | None, _ => true
       | Some _, Some e => consulapi.healthy e
       | Some _, None => false
       end |}.

(** [client.Agent().ServiceRegister(r)]: when the agent accepts it, the
    registration replaces whatever was registered under its ID;
    [register_err] is the agent's error, if it refuses. *)
Definition ServiceRegister (register_err : option error)
           (reg : consulapi.Registry) (r : AgentServiceRegistration)
  : result unit * consulapi.Registry :=
  match register_err with
  | Some e => (Err e, reg)
  | None =>
      (Ok tt,
       {| consulapi.config_err := consulapi.config_err reg;
          consulapi.agent_err := consulapi.agent_err reg;
          consulapi.catalog :=
            filter (fun e => negb (has_ID (ID r) e)) (consulapi.catalog reg)
            ++ [entry_of (find (has_ID (ID r)) (consulapi.catalog reg)) r]
       |})
  end.

(** An HTTP check passes on a 2xx answer. *)
Definition passing (status : Z) : bool :=
  (200 <=? status)%Z && (status <=? 299)%Z.

(** The outcome of one probe of the check of service [id], answered
    with [status]: the instance is healthy exactly when it passes. *)
Definition check_result (id : string) (status : Z)
           (reg : consulapi.Registry) : consulapi.Registry :=
  {| consulapi.config_err := consulapi.config_err reg;
     consulapi.agent_err := consulapi.agent_err reg;
     consulapi.catalog :=
       map (fun e =>
              if has_ID id e
              then {| consulapi.Service := consulapi.Service e;
                      consulapi.healthy := passing status |}
              else e)
           (consulapi.catalog reg) |}.

End agent.

(** What a service's [registerWithConsul] returns and leaves behind:
    its error ([None] is [nil]), the registry and the lines it logged. *)
Record Registered : Type := mkRegistered {
  reg_err : option error;
  reg_registry : consulapi.Registry;
  reg_log : list LogLine
}.

(* ------------------------------------------------------------------ *)
(** ** The users service: [services/users-service/main.go] *)

Module users_service.

Definition serviceName : string := "users-service".
Definition servicePort : Z := 8081.

(** [handleHealthCheck]: returns service health status. *)
Definition handleHealthCheck : http.Response :=
  {| http.StatusCode := 200;
     http.RespHdr := [("Content-Type", ["text/plain"])];
     http.RespBody := "OK" |}.

(** The registration that [registerWithConsul] builds on host
    [hostname]. *)
Definition registration (hostname : string)
  : agent.AgentServiceRegistration :=
  {| agent.ID := serviceName ++ "-" ++ hostname;
     agent.Name := serviceName;
     agent.Port := servicePort;
     agent.Address := hostname;
     agent.Check :=
       Some {| agent.HTTP :=
                 "http://" ++ hostname ++ ":" ++ itoa servicePort
                 ++ "/health";
               agent.Interval := "10s";
               agent.Timeout := "1s" |} |}.

(** [registerWithConsul]: registers the service instance with Consul.
    [os_Hostname] is the result of [os.Hostname()]. *)
Definition registerWithConsul (os_Hostname : result string)
           (register_err : option error) (reg : consulapi.Registry)
  : Registered :=
  match consulapi.NewClient reg with
  | Err err =>
      {| reg_err := Some ("consul client init failed: " ++ err);
         reg_registry := reg; reg_log := [] |}
  | Ok _ =>
      match os_Hostname with
      | Err err =>
          {| reg_err := Some ("hostname lookup failed: " ++ err);
             reg_registry := reg; reg_log := [] |}
      | Ok hostname =>
          match agent.ServiceRegister register_err reg
                                      (registration hostname) with
          | (Err err, reg') =>
              {| reg_err := Some ("registration failed: " ++ err);
                 reg_registry := reg'; reg_log := [] |}
          | (Ok _, reg') =>
              {| reg_err := None;
                 reg_registry := reg';
                 reg_log :=
                   [{| format := "Registered %s on %s:%d";
                       args := [ArgStr serviceName; ArgStr hostname;
                                ArgInt servicePort] |}] |}
          end
      end
  end.

End users_service.

(* ------------------------------------------------------------------ *)
(** ** The products service: [services/products-service/main.go] *)

Module products_service.

Definition serviceName : string := "products-service".
Definition servicePort : Z := 8082.

(** [handleHealthStatus]: indicates the service is operational. *)
Definition handleHealthStatus : http.Response :=
  {| http.StatusCode := 200;
     http.RespHdr := [("Content-Type", ["text/plain"])];
     http.RespBody := "Healthy" |}.

(** The registration that [registerWithConsul] builds on host
    [hostname]. *)
Definition registration (hostname : string)
  : agent.AgentServiceRegistration :=
  {| agent.ID := serviceName ++ "-" ++ hostname;
     agent.Name := serviceName;
     agent.Port := servicePort;
     agent.Address := hostname;
     agent.Check :=
       Some {| agent.HTTP :=
                 "http://" ++ hostname ++ ":" ++ itoa servicePort
                 ++ "/health";
               agent.Interval := "10s";
               agent.Timeout := "1s" |} |}.

(** [registerWithConsul].  [os_Hostname] is the result of
    [os.Hostname()]. *)
Definition registerWithConsul (os_Hostname : result string)
           (register_err : option error) (reg : consulapi.Registry)
  : Registered :=
  match consulapi.NewClient reg with
  | Err err =>
      {| reg_err := Some ("failed to create consul client: " ++ err);
         reg_registry := reg; reg_log := [] |}
  | Ok _ =>
      match os_Hostname with
      | Err err =>
          {| reg_err := Some ("unable to get hostname: " ++ err);
             reg_registry := reg; reg_log := [] |}
      | Ok hostname =>
          match agent.ServiceRegister register_err reg
                                      (registration hostname) with
          | (Err err, reg') =>
              {| reg_err := Some ("service registration error: " ++ err);
                 reg_registry := reg'; reg_log := [] |}
          | (Ok _, reg') =>
              {| reg_err := None;
                 reg_registry := reg';
                 reg_log :=
                   [{| format := "Service %s registered successfully";
                       args := [ArgStr serviceName] |}] |}
          end
      end
  end.

End products_service.

(* ------------------------------------------------------------------ *)
(** ** A small deployment, for evaluating the model *)

Module example.

(** A stand-in for [url.Parse] on the endpoints the gateway builds:
    [http://host:port] with a host free of blanks. *)
Definition url_Parse (raw : string) : result url.URL :=
  match strings.strip "http://" raw with
  | Some host =>
      if strings.free " "%char host
      then Ok {| url.Scheme := "http"; url.Host := host;
                 url.Path := EmptyString; url.RawPath := EmptyString;
                 url.RawQuery := EmptyString;
                 url.Fragment := EmptyString |}
      else Err "invalid character in host name"
  | None => Err "unsupported endpoint"
  end.

Definition instance (name host : string) (port : Z)
  : consulapi.AgentService :=
  {| consulapi.ID := name ++ "-" ++ host;
     consulapi.Name := name;
     consulapi.Tags := [];
     consulapi.Address := host;
     consulapi.Port := port |}.

Definition users_up : consulapi.ServiceEntry :=
  {| consulapi.Service := instance "users-service" "h1" 8081;
     consulapi.healthy := true |}.

Definition users_sick : consulapi.ServiceEntry :=
  {| consulapi.Service := instance "users-service" "h0" 8081;
     consulapi.healthy := false |}.

Definition products_up : consulapi.ServiceEntry :=
  {| consulapi.Service := instance "products-service" "h2" 8082;
     consulapi.healthy := true |}.

Definition dash_up : consulapi.ServiceEntry :=
  {| consulapi.Service := instance "-service" "h3" 8083;
     consulapi.healthy := true |}.

(** A reachable registry. *)
Definition registry_of (entries : list consulapi.ServiceEntry)
  : consulapi.Registry :=
  {| consulapi.config_err := None;
     consulapi.agent_err := fun _ => None;
     consulapi.catalog := entries |}.

(** A registry whose agent does not answer. *)
Definition unreachable (entries : list consulapi.ServiceEntry)
  : consulapi.Registry :=
  {| consulapi.config_err := None;
     consulapi.agent_err := fun _ => Some "connection refused";
     consulapi.catalog := entries |}.

Definition request (method path : string) : http.Request :=
  {| http.Method := method;
     http.URL := {| url.Scheme := EmptyString; url.Host := EmptyString;
                    url.Path := path; url.RawPath := EmptyString;
                    url.RawQuery := "verbose=1";
                    url.Fragment := EmptyString |};
     http.Hdr := [("Accept", ["text/plain"])];
     http.Body := EmptyString |}.

Definition reply (code : Z) (body : string) : http.Response :=
  {| http.StatusCode := code;
     http.RespHdr := [("Content-Type", ["text/plain"])];
     http.RespBody := body |}.

(** A 500 that asks for the connection to be closed. *)
Definition boom_closing : http.Response :=
  {| http.StatusCode := 500;
     http.RespHdr := [("Connection", ["close, X-Trace"]);
                      ("Content-Type", ["text/plain"]);
                      ("X-Trace", ["7"])];
     http.RespBody := "boom" |}.

(** A stateless backend that answers every request with [resp]. *)
Definition always (resp : http.Response)
  : unit -> url.URL -> http.Request -> RoundTripResult * unit :=
  fun _ _ _ => (Relayed resp, tt).

(** A backend that counts the requests it has served and reports the
    count in its answer. *)
Definition counting
  : nat -> url.URL -> http.Request -> RoundTripResult * nat :=
  fun n _ _ => (Relayed (reply 200 (itoa (Z.of_nat n))), S n).

End example.

(* ------------------------------------------------------------------ *)
(** ** The p2 gateway: [api-gateway/main.go] *)

Section Gateway.

(** The state of the backends behind the proxy. *)
Variable Backend : Type.

(** [url.Parse]. *)
Variable url_Parse : string -> result url.URL.

(** The round trip the reverse proxy makes for a request handed to
    [ServeHTTP]: the outcome and the backends' next state. *)
Variable RoundTrip :
  Backend -> url.URL -> http.Request -> RoundTripResult * Backend.

(** Everything outside the handler that a request can read or change. *)
Record World : Type := mkWorld {
  registry : consulapi.Registry;
  backend : Backend
}.

(** The result of running a piece of the handler: its value, the world
    it leaves and the calls it made. *)
Record Run (A : Type) : Type := mkRun {
  value : A;
  world : World;
  events : list Event
}.

Arguments mkRun {A} value world events.
Arguments value {A} r.
Arguments world {A} r.
Arguments events {A} r.

Definition M (A : Type) : Type := World -> Run A.

Definition ret {A} (a : A) : M A :=
  fun w => {| value := a; world := w; events := [] |}.

Definition bind {A B} (m : M A) (k : A -> M B) : M B :=
  fun w =>
    let r1 := m w in
    let r2 := k (value r1) (world r1) in
    {| value := value r2;
       world := world r2;
       events := events r1 ++ events r2 |}.

Notation "x <- m ;; k" := (bind m (fun x => k))
  (at level 61, m at next level, right associativity).
Notation "m ;;; k" := (bind m (fun _ => k))
  (at level 61, right associativity).

(** [log.Printf(format, args...)]. *)
Definition log_Printf (fmt : string) (a : list LogArg) : M unit :=
  fun w => {| value := tt; world := w;
              events := [EvLog {| format := fmt; args := a |}] |}.

(** [consulapi.NewClient(consulapi.DefaultConfig())]. *)
Definition NewClient : M (result unit) :=
  fun w => {| value := consulapi.NewClient (registry w); world := w;
              events := [EvNewClient] |}.

(** [client.Health().Service(service, tag, passingOnly, nil)]. *)
Definition Health_Service (service tag : string) (passingOnly : bool)
  : M (result (list consulapi.ServiceEntry)) :=
  fun w =>
    {| value := consulapi.Health_Service (registry w) service tag passingOnly;
       world := w;
       events := [EvHealthService service tag passingOnly] |}.

(** [httputil.NewSingleHostReverseProxy(target).ServeHTTP(w, r)]: the
    backend's response is passed on with its status and body, and with
    its headers less the hop-by-hop ones ([httputil.relay]); when the
    round trip fails the proxy's default error handler logs the error
    and answers 502 Bad Gateway with no body. *)
Definition ReverseProxy_ServeHTTP (target : url.URL) (r : http.Request)
  : M http.Response :=
  fun w =>
    let (res, b') := RoundTrip (backend w) target r in
    let w' := {| registry := registry w; backend := b' |} in
    match res with
    | Relayed resp =>
        {| value := httputil.relay resp;
           world := w';
           events := [EvServeHTTP target r] |}
    | TransportError e =>
        {| value := {| http.StatusCode := http.StatusBadGateway;
                       http.RespHdr := [];
                       http.RespBody := EmptyString |};
           world := w';
           events := [EvServeHTTP target r;
                      EvLog {| format := "http: proxy error: %v";
                               args := [ArgErr e] |}] |}
    end.

(** [discoverService]: retrieves a service endpoint from Consul.  (The
    source carries a stray second header line for this function; the
    body is that of the complete declaration.) *)
Definition discoverService (serviceName : string) : M (result url.URL) :=
  client <- NewClient ;;
  match client with
  | Err err => ret (Err ("consul client error: " ++ err))
  | Ok _ =>
      (* Fetch healthy service entries from Consul *)
      q <- Health_Service serviceName EmptyString true ;;
      match q with
      | Err err =>
          ret (Err ("consul query failed for '" ++ serviceName ++ "': " ++ err))
      | Ok healthyInstances =>
          match healthyInstances with
          | [] =>
              ret (Err ("no healthy instances available for '"
                        ++ serviceName ++ "'"))
          | first :: _ =>
              (* Use first available instance *)
              let instance := consulapi.Service first in
              let endpoint :=
                "http://" ++ consulapi.Address instance ++ ":"
                ++ itoa (consulapi.Port instance) in
              ret (url_Parse endpoint)
          end
      end
  end.

(** [pathParts] of [routeRequest]. *)
Definition pathParts (r : http.Request) : list string :=
  strings.Split (strings.TrimPrefix (url.Path (http.URL r)) "/") slash.

(** [routeRequest]: forwards HTTP requests to the appropriate
    microservice based on the URL path. *)
Definition routeRequest (r : http.Request) : M http.Response :=
  log_Printf "Incoming request: %s %s"
             [ArgStr (http.Method r); ArgStr (url.Path (http.URL r))] ;;;
  (* Parse the path to extract service name: /api/{service}/{resource} *)
  let pathParts := pathParts r in
  if (length pathParts <? 3)%nat
     || negb (String.eqb (nth 0 pathParts EmptyString) "api")
  then ret (http.Error "Invalid path format" http.StatusBadRequest)
  else
    let serviceName := nth 1 pathParts EmptyString ++ "-service" in
    (* Locate the service in Consul service registry *)
    found <- discoverService serviceName ;;
    match found with
    | Err err =>
        log_Printf "Service discovery failed for '%s': %v"
                   [ArgStr serviceName; ArgErr err] ;;;
        ret (http.Error "Service not available"
                        http.StatusServiceUnavailable)
    | Ok targetURL =>
        log_Printf "Located service at: %s" [ArgURL targetURL] ;;;
        (* Remove /api/{service} prefix before forwarding *)
        let r' :=
          http.set_URL_Path r
            ("/" ++ strings.Join (skipn 2 pathParts) "/") in
        log_Printf "Proxying to: %s%s"
                   [ArgURL targetURL; ArgStr (url.Path (http.URL r'))] ;;;
        ReverseProxy_ServeHTTP targetURL r'
    end.

(** *** The Path Router

    The parsing that [routeRequest] does on the request path, on its
    own: the service name it resolves and the path it forwards. *)

Inductive RouteError : Type :=
| MalformedPath.

Definition parse (path : string)
  : RouteError + (string * string) :=
  let parts := strings.Split (strings.TrimPrefix path "/") slash in
  if (length parts <? 3)%nat
     || negb (String.eqb (nth 0 parts EmptyString) "api")
  then inl MalformedPath
  else inr (nth 1 parts EmptyString ++ "-service",
            "/" ++ strings.Join (skipn 2 parts) "/").

(** The paths that [net/http] hands to a handler in [r.URL.Path]: an
    absolute path, or nothing (an authority-form or scheme-only target),
    or the asterisk of [OPTIONS *]. *)
Definition request_path (path : string) : bool :=
  strings.HasPrefix path "/"
  || String.eqb path EmptyString
  || String.eqb path "*".

(** *** Observations on a run *)

Definition is_new_client (e : Event) : bool :=
  match e with EvNewClient => true | _ => false end.

(** The log lines among some events. *)
Fixpoint logged (evs : list Event) : list LogLine :=
  match evs with
  | [] => []
  | EvLog l :: rest => l :: logged rest
  | _ :: rest => logged rest
  end.

(** The requests handed to the reverse proxy among some events. *)
Fixpoint forwarded (evs : list Event) : list (url.URL * http.Request) :=
  match evs with
  | [] => []
  | EvServeHTTP t r :: rest => (t, r) :: forwarded rest
  | _ :: rest => forwarded rest
  end.

(** The service names queried at the registry among some events. *)
Fixpoint queried (evs : list Event) : list string :=
  match evs with
  | [] => []
  | EvHealthService s _ _ :: rest => s :: queried rest
  | _ :: rest => queried rest
  end.


(** The healthy set of a service name: what a passing-only health query
    for [name] selects from the catalog, in the catalog's order. *)
Definition healthy_instances (reg : consulapi.Registry) (name : string)
  : list consulapi.ServiceEntry :=
  filter (consulapi.selected name EmptyString true) (consulapi.catalog reg).

(** The endpoint string that [discoverService] builds for an entry. *)
Definition endpoint (e : consulapi.ServiceEntry) : string :=
  "http://" ++ consulapi.Address (consulapi.Service e) ++ ":"
  ++ itoa (consulapi.Port (consulapi.Service e)).

(** The log lines of [routeRequest], by name. *)
Definition line_incoming (r : http.Request) : LogLine :=
  {| format := "Incoming request: %s %s";
     args := [ArgStr (http.Method r); ArgStr (url.Path (http.URL r))] |}.

Definition line_failed (serviceName : string) (err : error) : LogLine :=
  {| format := "Service discovery failed for '%s': %v";
     args := [ArgStr serviceName; ArgErr err] |}.

Definition line_located (target : url.URL) : LogLine :=
  {| format := "Located service at: %s"; args := [ArgURL target] |}.

Definition line_proxying (target : url.URL) (path : string) : LogLine :=
  {| format := "Proxying to: %s%s"; args := [ArgURL target; ArgStr path] |}.

Definition line_proxy_error (err : error) : LogLine :=
  {| format := "http: proxy error: %v"; args := [ArgErr err] |}.


Definition names_reason (l : LogLine) : bool :=
  existsb (fun a => match a with ArgErr _ => true | _ => false end) (args l).




(** A run reports the backend's response [resp] as a failure when it
    does not answer with the status and the body of [resp], or logs an
    error for it. *)
Definition reported_as_failure (resp : http.Response)
           (run : Run http.Response) : Prop :=
  http.StatusCode (value run) <> http.StatusCode resp
  \/ http.RespBody (value run) <> http.RespBody resp
  \/ exists l, In l (logged (events run)) /\ names_reason l = true.

(** The routing decision of a run: the service names it asked the
    registry for, and the targets and paths it forwarded to. *)
Definition routing_decision (run : Run http.Response)
  : list string * list (url.URL * string) :=
  (queried (events run),
   map (fun tq => (fst tq, url.Path (http.URL (snd tq))))
       (forwarded (events run))).

(** A backend is stable for [GET] when, having answered a [GET], it
    answers the same request the same way again. *)
Definition stable_backend (b : Backend) : Prop :=
  forall target q res b',
    http.Method q = "GET" ->
    RoundTrip b target q = (res, b') ->
    fst (RoundTrip b' target q) = res.

(* ------------------------------------------------------------------ *)
(** ** Facts about [strings] *)

Import strings.

Lemma Split_not_nil (s : string) (sep : ascii) : Split s sep <> [].
Proof.
  destruct s as [|c s]; simpl; [discriminate|].
  destruct (Ascii.eqb c sep); [discriminate|].
  destruct (Split s sep); discriminate.
Qed.

(** Splitting at the first separator. *)
Lemma Split_app (a b : string) (sep : ascii) :
  free sep a = true ->
  Split (a ++ String sep b) sep = a :: Split b sep.
Proof.
  induction a as [|c a IH]; simpl; intros H.
  - rewrite Ascii.eqb_refl. reflexivity.
  - apply andb_true_iff in H as [Hc Ha].
    apply negb_true_iff in Hc. rewrite Hc, (IH Ha). reflexivity.
Qed.

(** Every piece of a split is free of the separator. *)
Lemma Split_pieces_free (s : string) (sep : ascii) :
  Forall (fun p => free sep p = true) (Split s sep).
Proof.
  induction s as [|c s IH]; simpl.
  - repeat constructor.
  - destruct (Ascii.eqb c sep) eqn:E.
    + constructor; [reflexivity | exact IH].
    + destruct (Split s sep) as [|h t].
      * repeat constructor. simpl. rewrite E. reflexivity.
      * inversion IH; subst. constructor; [|assumption].
        simpl. rewrite E. simpl. assumption.
Qed.

(** [Join] undoes [Split]. *)
Lemma Join_Split (s : string) (sep : ascii) :
  Join (Split s sep) (String sep EmptyString) = s.
Proof.
  induction s as [|c s IH]; simpl; [reflexivity|].
  destruct (Ascii.eqb c sep) eqn:E.
  - apply Ascii.eqb_eq in E. subst c.
    pose proof (Split_not_nil s sep) as Hne.
    destruct (Split s sep) as [|h t]; [congruence|].
    simpl in *. rewrite IH. reflexivity.
  - destruct (Split s sep) as [|h t] eqn:Hs.
    + exfalso. exact (Split_not_nil s sep Hs).
    + destruct t as [|h' t']; simpl in *; rewrite <- IH; reflexivity.
Qed.

Lemma TrimPrefix_slash (q : string) : TrimPrefix (String slash q) "/" = q.
Proof. reflexivity. Qed.

Lemma HasPrefix_slash (p : string) :
  HasPrefix p "/" = true -> exists q, p = String slash q.
Proof.
  unfold HasPrefix. destruct p as [|c q]; [discriminate|].
  unfold strip. destruct (Ascii.eqb "/" c) eqn:E; intros H; [|discriminate H].
  apply Ascii.eqb_eq in E. subst c. exists q. reflexivity.
Qed.

Lemma free_app (sep : ascii) (a b : string) :
  free sep (a ++ b) = free sep a && free sep b.
Proof.
  induction a as [|c a IH]; simpl; [reflexivity|].
  rewrite IH, andb_assoc. reflexivity.
Qed.


(* ------------------------------------------------------------------ *)
(** ** The shape of a run of [discoverService] *)

(** Resolution reads the world and leaves it as it is. *)
Lemma discoverService_world (name : string) (w : World) :
  world (discoverService name w) = w.
Proof.
  unfold discoverService, bind, NewClient, Health_Service, ret; simpl.
  destruct (consulapi.NewClient (registry w)); simpl; [|reflexivity].
  destruct (consulapi.Health_Service (registry w) name EmptyString true)
    as [[|first rest]|e]; reflexivity.
Qed.

(** Resolution makes one client, and with it at most one query. *)
Lemma discoverService_events (name : string) (w : World) :
  events (discoverService name w) =
  match consulapi.config_err (registry w) with
  | Some _ => [EvNewClient]
  | None => [EvNewClient; EvHealthService name EmptyString true]
  end.
Proof.
  unfold discoverService, bind, NewClient, Health_Service, ret; simpl.
  unfold consulapi.NewClient.
  destruct (consulapi.config_err (registry w)); simpl; [reflexivity|].
  destruct (consulapi.Health_Service (registry w) name EmptyString true)
    as [[|first rest]|e]; reflexivity.
Qed.

(** The value of a resolution, by the state of the registry. *)
Lemma discoverService_value (name : string) (w : World) :
  value (discoverService name w) =
  match consulapi.config_err (registry w) with
  | Some e => Err ("consul client error: " ++ e)
  | None =>
      match consulapi.agent_err (registry w) name with
      | Some e => Err ("consul query failed for '" ++ name ++ "': " ++ e)
      | None =>
          match healthy_instances (registry w) name with
          | [] => Err ("no healthy instances available for '" ++ name ++ "'")
          | first :: _ => url_Parse (endpoint first)
          end
      end
  end.
Proof.
  unfold discoverService, bind, NewClient, Health_Service, ret; simpl.
  unfold consulapi.NewClient, consulapi.Health_Service.
  destruct (consulapi.config_err (registry w)); simpl; [reflexivity|].
  destruct (consulapi.agent_err (registry w) name); simpl; [reflexivity|].
  fold (healthy_instances (registry w) name).
  destruct (healthy_instances (registry w) name); reflexivity.
Qed.

(* ------------------------------------------------------------------ *)
(** ** The shape of a run of [routeRequest] *)

(** A request whose path does not parse is answered 400 at once. *)
Lemma routeRequest_malformed (r : http.Request) (w : World) :
  parse (url.Path (http.URL r)) = inl MalformedPath ->
  routeRequest r w =
  {| value := http.Error "Invalid path format" http.StatusBadRequest;
     world := w;
     events := [EvLog (line_incoming r)] |}.
Proof.
  unfold parse, routeRequest, pathParts, bind, log_Printf, ret.
  cbn [value world events app].
  destruct (_ || _); [reflexivity | discriminate].
Qed.

(** A request whose service does not resolve is answered 503 after the
    one resolution. *)
Lemma routeRequest_unavailable (r : http.Request) (w : World)
      (svc fwd : string) (e : error) :
  parse (url.Path (http.URL r)) = inr (svc, fwd) ->
  value (discoverService svc w) = Err e ->
  routeRequest r w =
  {| value := http.Error "Service not available"
                         http.StatusServiceUnavailable;
     world := w;
     events := EvLog (line_incoming r)
               :: events (discoverService svc w)
               ++ [EvLog (line_failed svc e)] |}.
Proof.
  unfold parse, routeRequest, pathParts, bind, log_Printf, ret.
  cbn [value world events app].
  destruct (_ || _); [discriminate|].
  intros H He. injection H as <- <-.
  rewrite He, discoverService_world. cbn [value world events app].
  reflexivity.
Qed.

(** A request whose service resolves is handed to the reverse proxy,
    with the rewritten path, and answered with what the proxy writes. *)
Lemma routeRequest_forward (r : http.Request) (w : World)
      (svc fwd : string) (target : url.URL) :
  parse (url.Path (http.URL r)) = inr (svc, fwd) ->
  value (discoverService svc w) = Ok target ->
  routeRequest r w =
  let p := ReverseProxy_ServeHTTP target (http.set_URL_Path r fwd) w in
  {| value := value p;
     world := world p;
     events := EvLog (line_incoming r)
               :: events (discoverService svc w)
               ++ [EvLog (line_located target);
                   EvLog (line_proxying target fwd)]
               ++ events p |}.
Proof.
  unfold parse, routeRequest, pathParts, bind, log_Printf, ret.
  cbn [value world events app].
  destruct (_ || _); [discriminate|].
  intros H He. injection H as <- <-.
  rewrite He, discoverService_world. cbn [value world events app].
  reflexivity.
Qed.

(* ------------------------------------------------------------------ *)
(** ** The Path Router *)

(** The parser on a path of the expected form, with or without its
    leading slash removed. *)
Lemma parse_trimmed (path svc rest : string) :
  no_slash svc = true ->
  TrimPrefix path "/" = "api/" ++ svc ++ "/" ++ rest ->
  parse path = inr (svc ++ "-service", "/" ++ rest).
Proof.
  intros Hsvc Htrim. unfold parse. rewrite Htrim.
  change ("api/" ++ svc ++ "/" ++ rest)
    with ("api" ++ String slash (svc ++ String slash rest)).
  rewrite Split_app by reflexivity.
  rewrite (Split_app svc rest slash Hsvc).
  pose proof (Split_not_nil rest slash) as Hne.
  pose proof (Join_Split rest slash) as Hjoin.
  destruct (Split rest slash) as [|p ps]; [congruence|].
  cbn [length Nat.ltb Nat.leb nth skipn orb negb].
  change (String.eqb "api" "api") with true. cbn [negb orb].
  change (String slash EmptyString) with "/" in Hjoin.
  rewrite Hjoin. reflexivity.
Qed.

(** Whatever the parser accepts has the expected form. *)
Lemma parse_accepts_inv (path name fwd : string) :
  parse path = inr (name, fwd) ->
  exists svc rest,
    no_slash svc = true
    /\ TrimPrefix path "/" = "api/" ++ svc ++ "/" ++ rest
    /\ name = svc ++ "-service"
    /\ fwd = "/" ++ rest.
Proof.
  unfold parse.
  pose proof (Join_Split (TrimPrefix path "/") slash) as Hjoin.
  pose proof (Split_pieces_free (TrimPrefix path "/") slash) as Hfree.
  destruct (Split (TrimPrefix path "/") slash) as [|p0 [|p1 [|p2 ps]]];
    cbn [length Nat.ltb Nat.leb orb]; try discriminate.
  cbn [nth skipn].
  destruct (String.eqb p0 "api") eqn:E0; cbn [negb]; [|discriminate].
  apply String.eqb_eq in E0. subst p0.
  intros H. injection H as <- <-.
  exists p1, (Join (p2 :: ps) "/").
  inversion Hfree as [|? ? _ Hfree1]; subst.
  inversion Hfree1 as [|? ? Hp1 _]; subst.
  repeat split; [exact Hp1|].
  rewrite <- Hjoin. reflexivity.
Qed.

(** The parser either fails with [MalformedPath] or accepts. *)
Lemma parse_cases (path : string) :
  parse path = inl MalformedPath
  \/ exists name fwd, parse path = inr (name, fwd).
Proof.
  unfold parse. destruct (_ || _); [left | right; eauto]. reflexivity.
Qed.

(** A segment followed by a slash is not a segment. *)
Lemma no_slash_segment_slash (svc rest : string) :
  no_slash (svc ++ "/" ++ rest) = false.
Proof.
  unfold no_slash. rewrite free_app. simpl.
  apply andb_false_r.
Qed.

(** The leading slash is optional to the parser: [TrimPrefix] removes
    it when it is there.  No request path lacks it. *)
Remark parse_without_leading_slash :
  parse "api/users/42" = inr ("users-service", "/42")
  /\ request_path "api/users/42" = false.
Proof. split; reflexivity. Qed.

(** C1. For every path [/api/<svc>/<rest>] the parser derives the
    service name [svc ++ "-service"] and the forward path ["/" ++ rest],
    an empty rest giving ["/"]; every request path that does not begin
    with the [/api/] prefix, or that has fewer than two segments after
    it, fails with [MalformedPath], and such a request is answered
    without any resolution or forwarding. *)
Theorem parse_path_router :
  (forall svc rest : string,
      no_slash svc = true ->
      parse ("/api/" ++ svc ++ "/" ++ rest)
      = inr (svc ++ "-service", "/" ++ rest))
  /\ (forall svc : string,
      no_slash svc = true ->
      parse ("/api/" ++ svc ++ "/") = inr (svc ++ "-service", "/"))
  /\ (forall path : string,
      request_path path = true ->
      (~ (exists q, path = "/api/" ++ q))
      \/ (exists s, path = "/api/" ++ s /\ no_slash s = true) ->
      parse path = inl MalformedPath)
  /\ (forall (r : http.Request) (w : World),
      parse (url.Path (http.URL r)) = inl MalformedPath ->
      queried (events (routeRequest r w)) = []
      /\ forwarded (events (routeRequest r w)) = []).
Proof.
  split; [|split; [|split]].
  - intros svc rest Hsvc. apply parse_trimmed; [exact Hsvc | reflexivity].
  - intros svc Hsvc.
    rewrite (parse_trimmed ("/api/" ++ svc ++ "/") svc EmptyString Hsvc);
      reflexivity.
  - intros path Hreq Hbad.
    unfold request_path in Hreq.
    apply orb_true_iff in Hreq as [Hreq | Hstar];
      [apply orb_true_iff in Hreq as [Hslash | Hnil]|];
      [| apply String.eqb_eq in Hnil; subst path; reflexivity
       | apply String.eqb_eq in Hstar; subst path; reflexivity].
    destruct (parse_cases path) as [H | (name & fwd & H)]; [exact H|].
    exfalso.
    apply parse_accepts_inv in H as (svc & rest & Hsvc & Htrim & _ & _).
    apply HasPrefix_slash in Hslash as [q ->].
    rewrite TrimPrefix_slash in Htrim. subst q.
    destruct Hbad as [Hno | (s & Hs & Hfree)].
    + apply Hno. exists (svc ++ "/" ++ rest). reflexivity.
    + assert (s = svc ++ "/" ++ rest) as ->
        by (unfold slash in Hs; simpl in Hs; injection Hs as Hs; auto).
      rewrite no_slash_segment_slash in Hfree. discriminate.
  - intros r w H. rewrite (routeRequest_malformed r w H). split; reflexivity.
Qed.

(* ------------------------------------------------------------------ *)
(** ** The Registry Resolver *)

(** An entry of the healthy set is a healthy entry of the catalog,
    registered under the name asked for. *)
Lemma healthy_instances_In (reg : consulapi.Registry) (name : string)
      (e : consulapi.ServiceEntry) :
  In e (healthy_instances reg name) ->
  In e (consulapi.catalog reg)
  /\ consulapi.healthy e = true
  /\ consulapi.Name (consulapi.Service e) = name.
Proof.
  unfold healthy_instances. rewrite filter_In.
  unfold consulapi.selected. intros [Hin Hsel].
  apply andb_true_iff in Hsel as [Hsel Hhealthy].
  apply andb_true_iff in Hsel as [Hname _].
  apply String.eqb_eq in Hname. simpl in Hhealthy. auto.
Qed.

(** With no healthy instance, resolution fails. *)
Lemma discoverService_none (name : string) (w : World) :
  healthy_instances (registry w) name = [] ->
  is_Err (value (discoverService name w)) = true.
Proof.
  intros H. rewrite discoverService_value, H.
  destruct (consulapi.config_err (registry w)); [reflexivity|].
  destruct (consulapi.agent_err (registry w) name); reflexivity.
Qed.

(** Resolution looks at the registry only. *)
Lemma discoverService_registry (name : string) (w1 w2 : World) :
  registry w1 = registry w2 ->
  value (discoverService name w1) = value (discoverService name w2)
  /\ events (discoverService name w1) = events (discoverService name w2).
Proof.
  intros H. rewrite !discoverService_value, !discoverService_events, H.
  split; reflexivity.
Qed.

(** C3, as the code has it.  When the Consul client can be made and the
    agent answers the health query, a name with at least one healthy
    instance resolves to the parse of the endpoint of the first healthy
    instance in catalog order; whatever resolution returns is the
    endpoint of that first instance, which is in the catalog, healthy
    and registered under the name; and a name with no healthy instance
    fails to resolve.  When the client cannot be made, or the agent
    does not answer the query, resolution fails with that error,
    whatever is registered. *)
Theorem discoverService_first_healthy (name : string) (w : World) :
  (consulapi.config_err (registry w) = None ->
   consulapi.agent_err (registry w) name = None ->
   forall first rest,
     healthy_instances (registry w) name = first :: rest ->
     value (discoverService name w) = url_Parse (endpoint first))
  /\ (forall u : url.URL,
      value (discoverService name w) = Ok u ->
      exists first rest,
        healthy_instances (registry w) name = first :: rest
        /\ url_Parse (endpoint first) = Ok u
        /\ In first (consulapi.catalog (registry w))
        /\ consulapi.healthy first = true
        /\ consulapi.Name (consulapi.Service first) = name)
  /\ (healthy_instances (registry w) name = [] ->
      is_Err (value (discoverService name w)) = true)
  /\ (forall e : error,
      consulapi.config_err (registry w) = Some e ->
      value (discoverService name w)
      = Err ("consul client error: " ++ e))
  /\ (consulapi.config_err (registry w) = None ->
      forall e : error,
        consulapi.agent_err (registry w) name = Some e ->
        value (discoverService name w)
        = Err ("consul query failed for '" ++ name ++ "': " ++ e))
  /\ (consulapi.config_err (registry w) = None ->
      consulapi.agent_err (registry w) name = None ->
      healthy_instances (registry w) name = [] ->
      value (discoverService name w)
      = Err ("no healthy instances available for '" ++ name ++ "'")).
Proof.
  split; [|split; [|split; [|split; [|split]]]].
  - intros Hc Ha first rest Hh.
    rewrite discoverService_value, Hc, Ha, Hh. reflexivity.
  - intros u. rewrite discoverService_value.
    destruct (consulapi.config_err (registry w)); [discriminate|].
    destruct (consulapi.agent_err (registry w) name); [discriminate|].
    destruct (healthy_instances (registry w) name) as [|first rest] eqn:Hh;
      [discriminate|].
    intros Hu. exists first, rest.
    destruct (healthy_instances_In (registry w) name first)
      as (Hin & Hhealthy & Hname); [rewrite Hh; left; reflexivity|].
    auto.
  - apply discoverService_none.
  - intros e Hc. rewrite discoverService_value, Hc. reflexivity.
  - intros Hc e Ha. rewrite discoverService_value, Hc, Ha. reflexivity.
  - intros Hc Ha Hh. rewrite discoverService_value, Hc, Ha, Hh. reflexivity.
Qed.

(* ------------------------------------------------------------------ *)
(** ** The Gateway's error mapping *)

(** C2. A path-parsing failure is answered 400 and a resolution failure
    is answered 503, in particular when the derived service name has no
    healthy instance: each kind of failure has its one status. *)
Theorem failure_status (r : http.Request) (w : World) :
  (parse (url.Path (http.URL r)) = inl MalformedPath ->
   value (routeRequest r w) = http.Error "Invalid path format" 400
   /\ http.StatusCode (value (routeRequest r w)) = 400%Z)
  /\ (forall svc fwd : string,
      parse (url.Path (http.URL r)) = inr (svc, fwd) ->
      is_Err (value (discoverService svc w)) = true ->
      value (routeRequest r w) = http.Error "Service not available" 503
      /\ http.StatusCode (value (routeRequest r w)) = 503%Z)
  /\ (forall svc fwd : string,
      parse (url.Path (http.URL r)) = inr (svc, fwd) ->
      healthy_instances (registry w) svc = [] ->
      http.StatusCode (value (routeRequest r w)) = 503%Z).
Proof.
  assert (Hun : forall svc fwd : string,
             parse (url.Path (http.URL r)) = inr (svc, fwd) ->
             is_Err (value (discoverService svc w)) = true ->
             value (routeRequest r w)
             = http.Error "Service not available" 503).
  { intros svc fwd Hp He.
    destruct (value (discoverService svc w)) as [u|e] eqn:Hv;
      [discriminate|].
    rewrite (routeRequest_unavailable r w svc fwd e Hp Hv). reflexivity. }
  split; [|split].
  - intros Hp. rewrite (routeRequest_malformed r w Hp). split; reflexivity.
  - intros svc fwd Hp He. rewrite (Hun svc fwd Hp He). split; reflexivity.
  - intros svc fwd Hp Hnone.
    rewrite (Hun svc fwd Hp (discoverService_none svc w Hnone)).
    reflexivity.
Qed.

(* ------------------------------------------------------------------ *)
(** ** The Proxy Forwarder *)

(** A relayed backend response is what the proxy writes. *)
Lemma ServeHTTP_relayed (target : url.URL) (q : http.Request) (w : World)
      (resp : http.Response) (b' : Backend) :
  RoundTrip (backend w) target q = (Relayed resp, b') ->
  ReverseProxy_ServeHTTP target q w =
  {| value := httputil.relay resp;
     world := {| registry := registry w; backend := b' |};
     events := [EvServeHTTP target q] |}.
Proof.
  intros H. unfold ReverseProxy_ServeHTTP. rewrite H. reflexivity.
Qed.

(** A failed round trip is logged and answered 502. *)
Lemma ServeHTTP_failed (target : url.URL) (q : http.Request) (w : World)
      (e : error) (b' : Backend) :
  RoundTrip (backend w) target q = (TransportError e, b') ->
  ReverseProxy_ServeHTTP target q w =
  {| value := {| http.StatusCode := http.StatusBadGateway;
                 http.RespHdr := [];
                 http.RespBody := EmptyString |};
     world := {| registry := registry w; backend := b' |};
     events := [EvServeHTTP target q; EvLog (line_proxy_error e)] |}.
Proof.
  intros H. unfold ReverseProxy_ServeHTTP. rewrite H. reflexivity.
Qed.

(** The proxy makes one round trip, whatever comes of it. *)
Lemma ServeHTTP_events (target : url.URL) (q : http.Request) (w : World) :
  exists tail,
    events (ReverseProxy_ServeHTTP target q w) = EvServeHTTP target q :: tail
    /\ (tail = [] \/ exists e, tail = [EvLog (line_proxy_error e)]).
Proof.
  unfold ReverseProxy_ServeHTTP.
  destruct (RoundTrip (backend w) target q) as [[resp|e] b']; simpl.
  - exists []. auto.
  - exists [EvLog (line_proxy_error e)]. split; [reflexivity|]. right.
    exists e. reflexivity.
Qed.

(** The events of a resolution hold no log line and no forward, and at
    most one client and one query. *)
Lemma discoverService_observed (name : string) (w : World) :
  logged (events (discoverService name w)) = []
  /\ forwarded (events (discoverService name w)) = []
  /\ (length (filter is_new_client (events (discoverService name w))) <= 1)%nat
  /\ (queried (events (discoverService name w)) = []
      \/ queried (events (discoverService name w)) = [name]).
Proof.
  rewrite discoverService_events.
  destruct (consulapi.config_err (registry w)); simpl; auto.
Qed.

Lemma logged_app (a b : list Event) :
  logged (a ++ b) = (logged a ++ logged b)%list.
Proof.
  induction a as [|[l| | |] a IH]; simpl; rewrite ?IH; reflexivity.
Qed.

Lemma forwarded_app (a b : list Event) :
  forwarded (a ++ b) = (forwarded a ++ forwarded b)%list.
Proof.
  induction a as [|[l| | |] a IH]; simpl; rewrite ?IH; reflexivity.
Qed.

Lemma queried_app (a b : list Event) :
  queried (a ++ b) = (queried a ++ queried b)%list.
Proof.
  induction a as [|[l| | |] a IH]; simpl; rewrite ?IH; reflexivity.
Qed.

(** The proxy passes on the status and the body of a response. *)
Lemma relay_status_body (resp : http.Response) :
  http.StatusCode (httputil.relay resp) = http.StatusCode resp
  /\ http.RespBody (httputil.relay resp) = http.RespBody resp.
Proof.
  unfold httputil.relay.
  destruct (http.StatusCode resp =? 101)%Z; split; reflexivity.
Qed.

(** C4, as the code has it.  For every request that reaches the
    forwarding step, a response that the backend returns, a 5xx as any
    other, is passed on to the caller after one forward: the gateway
    answers with the backend's status and body, and with the backend's
    headers less the hop-by-hop ones (unless the response is a 101),
    and its log holds the three lines of a forwarded request and no
    failure. *)
Theorem backend_response_relayed (r : http.Request) (w : World)
        (svc fwd : string) (target : url.URL)
        (resp : http.Response) (b' : Backend) :
  parse (url.Path (http.URL r)) = inr (svc, fwd) ->
  value (discoverService svc w) = Ok target ->
  RoundTrip (backend w) target (http.set_URL_Path r fwd)
  = (Relayed resp, b') ->
  http.StatusCode (value (routeRequest r w)) = http.StatusCode resp
  /\ http.RespBody (value (routeRequest r w)) = http.RespBody resp
  /\ (http.StatusCode resp <> 101%Z ->
      http.RespHdr (value (routeRequest r w))
      = httputil.removeHopByHopHeaders (http.RespHdr resp))
  /\ forwarded (events (routeRequest r w))
     = [(target, http.set_URL_Path r fwd)]
  /\ logged (events (routeRequest r w))
     = [line_incoming r; line_located target; line_proxying target fwd]
  /\ ~ reported_as_failure resp (routeRequest r w).
Proof.
  intros Hp Hd Hrt.
  destruct (discoverService_observed svc w) as (Hlog & Hfwd & _ & _).
  destruct (relay_status_body resp) as [Hstatus Hbody].
  rewrite (routeRequest_forward r w svc fwd target Hp Hd).
  rewrite (ServeHTTP_relayed _ _ _ _ _ Hrt).
  assert (Hl : logged
                 (EvLog (line_incoming r)
                  :: events (discoverService svc w)
                  ++ [EvLog (line_located target);
                      EvLog (line_proxying target fwd)]
                  ++ [EvServeHTTP target (http.set_URL_Path r fwd)])
               = [line_incoming r; line_located target;
                  line_proxying target fwd]).
  { cbn [logged]. rewrite logged_app, Hlog. reflexivity. }
  cbn [value events].
  split; [exact Hstatus|]. split; [exact Hbody|].
  split; [|split; [|split; [exact Hl|]]].
  - intros Hne. unfold httputil.relay.
    apply Z.eqb_neq in Hne. rewrite Hne. reflexivity.
  - cbn [forwarded]. rewrite forwarded_app, Hfwd. reflexivity.
  - unfold reported_as_failure. cbn [value events]. rewrite Hl.
    intros [Hne | [Hne | (l & Hin & Hreason)]];
      [apply Hne; exact Hstatus | apply Hne; exact Hbody |].
    simpl in Hin.
    destruct Hin as [<- | [<- | [<- | []]]]; discriminate Hreason.
Qed.

(* ------------------------------------------------------------------ *)
(** ** The Gateway, run by run *)

(** The four ways a request can go: malformed path, failed resolution,
    relayed response, failed round trip.  Each rewrites the run of
    [routeRequest] into its explicit record. *)
Ltac route_cases r w :=
  let Hp := fresh "Hp" in
  let Hd := fresh "Hd" in
  let Hrt := fresh "Hrt" in
  let svc := fresh "svc" in
  let fwd := fresh "fwd" in
  let target := fresh "target" in
  let err := fresh "err" in
  let resp := fresh "resp" in
  let b' := fresh "b'" in
  destruct (parse_cases (url.Path (http.URL r))) as [Hp | (svc & fwd & Hp)];
  [ rewrite (routeRequest_malformed r w Hp)
  | destruct (value (discoverService svc w)) as [target|err] eqn:Hd;
    [ rewrite (routeRequest_forward r w svc fwd target Hp Hd); cbv zeta;
      destruct (RoundTrip (backend w) target (http.set_URL_Path r fwd))
        as [[resp|err] b'] eqn:Hrt;
      [ rewrite (ServeHTTP_relayed _ _ _ _ _ Hrt)
      | rewrite (ServeHTTP_failed _ _ _ _ _ Hrt) ]
    | rewrite (routeRequest_unavailable r w svc fwd err Hp Hd) ] ];
  cbn [value world events].

(** The events of a resolution, spelled out. *)
Ltac resolution_events svc w :=
  rewrite ?(discoverService_events svc w);
  destruct (consulapi.config_err (registry w)).


(** C6. A request makes at most one Consul client, at most one health
    query and at most one forward; after a failed resolution nothing is
    forwarded, and a failed round trip is not repeated. *)
Theorem single_attempt (r : http.Request) (w : World) :
  (length (filter is_new_client (events (routeRequest r w))) <= 1)%nat
  /\ (length (queried (events (routeRequest r w))) <= 1)%nat
  /\ (length (forwarded (events (routeRequest r w))) <= 1)%nat
  /\ (forall svc fwd,
      parse (url.Path (http.URL r)) = inr (svc, fwd) ->
      is_Err (value (discoverService svc w)) = true ->
      forwarded (events (routeRequest r w)) = [])
  /\ (forall svc fwd target e b',
      parse (url.Path (http.URL r)) = inr (svc, fwd) ->
      value (discoverService svc w) = Ok target ->
      RoundTrip (backend w) target (http.set_URL_Path r fwd)
      = (TransportError e, b') ->
      forwarded (events (routeRequest r w))
      = [(target, http.set_URL_Path r fwd)]).
Proof.
  split; [|split; [|split; [|split]]].
  - route_cases r w; try resolution_events svc w; simpl; lia.
  - route_cases r w; try resolution_events svc w; simpl; lia.
  - route_cases r w; try resolution_events svc w; simpl; lia.
  - intros svc fwd Hp He.
    destruct (value (discoverService svc w)) as [u|e] eqn:Hd;
      [discriminate|].
    rewrite (routeRequest_unavailable r w svc fwd e Hp Hd).
    cbn [events]. resolution_events svc w; reflexivity.
  - intros svc fwd target e b' Hp Hd Hrt.
    rewrite (routeRequest_forward r w svc fwd target Hp Hd). cbv zeta.
    rewrite (ServeHTTP_failed _ _ _ _ _ Hrt).
    cbn [events]. resolution_events svc w; reflexivity.
Qed.

(** The routing decision, from the path and the registry. *)
Lemma routing_decision_spec (r : http.Request) (w : World) :
  routing_decision (routeRequest r w) =
  match parse (url.Path (http.URL r)) with
  | inl _ => ([], [])
  | inr (svc, fwd) =>
      (queried (events (discoverService svc w)),
       match value (discoverService svc w) with
       | Ok target => [(target, fwd)]
       | Err _ => []
       end)
  end.
Proof.
  unfold routing_decision.
  destruct (parse_cases (url.Path (http.URL r)))
    as [Hp | (svc & fwd & Hp)]; rewrite Hp.
  - rewrite (routeRequest_malformed r w Hp). reflexivity.
  - destruct (discoverService_observed svc w) as (_ & Hfwd & _ & _).
    destruct (value (discoverService svc w)) as [target|err] eqn:Hd.
    + rewrite (routeRequest_forward r w svc fwd target Hp Hd). cbv zeta.
      cbn [events queried forwarded].
      rewrite !queried_app, !forwarded_app, Hfwd.
      destruct (ServeHTTP_events target (http.set_URL_Path r fwd) w)
        as (tail & -> & [-> | (e & ->)]);
        cbn [queried forwarded app map fst snd]; rewrite ?app_nil_r;
        reflexivity.
    + rewrite (routeRequest_unavailable r w svc fwd err Hp Hd).
      cbn [events queried forwarded].
      rewrite !queried_app, !forwarded_app, Hfwd.
      cbn [queried forwarded app map]. rewrite app_nil_r. reflexivity.
Qed.

(** Handling a request leaves the registry as it is. *)
Lemma routeRequest_registry (r : http.Request) (w : World) :
  registry (world (routeRequest r w)) = registry w.
Proof. route_cases r w; reflexivity. Qed.

(** C7. Two identical [GET] requests, one after the other, against a
    backend that is stable for [GET], get identical responses; handling
    a request does not change the registry; and the routing decision
    (the name resolved, the target and the forward path) is a function
    of the request path and the registry alone. *)
Theorem repeated_get_same_response :
  (forall (r : http.Request) (w : World),
      http.Method r = "GET" ->
      stable_backend (backend w) ->
      value (routeRequest r (world (routeRequest r w)))
      = value (routeRequest r w))
  /\ (forall (r : http.Request) (w : World),
      registry (world (routeRequest r w)) = registry w)
  /\ (forall (r1 r2 : http.Request) (w1 w2 : World),
      url.Path (http.URL r1) = url.Path (http.URL r2) ->
      registry w1 = registry w2 ->
      routing_decision (routeRequest r1 w1)
      = routing_decision (routeRequest r2 w2)).
Proof.
  split; [|split].
  - intros r w Hget Hstable.
    pose proof (routeRequest_registry r w) as Hreg.
    set (w1 := world (routeRequest r w)) in *.
    destruct (parse_cases (url.Path (http.URL r)))
      as [Hp | (svc & fwd & Hp)].
    + rewrite (routeRequest_malformed r w Hp).
      rewrite (routeRequest_malformed r w1 Hp). reflexivity.
    + destruct (discoverService_registry svc w1 w Hreg) as [Hv _].
      destruct (value (discoverService svc w)) as [target|err] eqn:Hd.
      * assert (Hb : backend w1
                     = snd (RoundTrip (backend w) target
                                      (http.set_URL_Path r fwd))).
        { subst w1.
          rewrite (routeRequest_forward r w svc fwd target Hp Hd).
          cbv zeta. unfold ReverseProxy_ServeHTTP.
          destruct (RoundTrip (backend w) target (http.set_URL_Path r fwd))
            as [[resp|e] b']; reflexivity. }
        rewrite (routeRequest_forward r w1 svc fwd target Hp Hv).
        rewrite (routeRequest_forward r w svc fwd target Hp Hd).
        cbv zeta. cbn [value]. unfold ReverseProxy_ServeHTTP.
        rewrite Hb.
        destruct (RoundTrip (backend w) target (http.set_URL_Path r fwd))
          as [res b'] eqn:Hrt.
        pose proof (Hstable target (http.set_URL_Path r fwd) res b'
                            Hget Hrt) as Hsame.
        cbn [snd].
        destruct (RoundTrip b' target (http.set_URL_Path r fwd))
          as [res' b''].
        cbn [fst] in Hsame. subst res'.
        destruct res; reflexivity.
      * rewrite (routeRequest_unavailable r w1 svc fwd err Hp Hv).
        rewrite (routeRequest_unavailable r w svc fwd err Hp Hd).
        reflexivity.
  - exact routeRequest_registry.
  - intros r1 r2 w1 w2 Hpath Hreg.
    rewrite !routing_decision_spec, Hpath.
    destruct (parse (url.Path (http.URL r2))) as [|[svc fwd]];
      [reflexivity|].
    destruct (discoverService_registry svc w1 w2 Hreg) as [-> ->].
    reflexivity.
Qed.

(** C8, as the code has it.  A path [/api//<rest>] is accepted by the
    parser with the service name ["-service"]: the request is not
    rejected as malformed but goes on to the resolution step.  It is
    answered 503 whenever that resolution fails, as it does when no
    healthy instance is registered under ["-service"]; and when that
    resolution succeeds it is forwarded like any other request: handed
    to the proxy once, for the resolved target, with the path
    ["/" ++ rest], and answered with what the proxy writes. *)
Theorem empty_service_token (r : http.Request) (w : World) (rest : string) :
  url.Path (http.URL r) = "/api//" ++ rest ->
  parse (url.Path (http.URL r)) = inr ("-service", "/" ++ rest)
  /\ In EvNewClient (events (routeRequest r w))
  /\ (is_Err (value (discoverService "-service" w)) = true ->
      value (routeRequest r w) = http.Error "Service not available" 503)
  /\ (healthy_instances (registry w) "-service" = [] ->
      http.StatusCode (value (routeRequest r w)) = 503%Z)
  /\ (forall target : url.URL,
      value (discoverService "-service" w) = Ok target ->
      forwarded (events (routeRequest r w))
      = [(target, http.set_URL_Path r ("/" ++ rest))]
      /\ value (routeRequest r w)
         = value (ReverseProxy_ServeHTTP
                    target (http.set_URL_Path r ("/" ++ rest)) w)).
Proof.
  intros Hpath.
  assert (Hp : parse (url.Path (http.URL r)) = inr ("-service", "/" ++ rest)).
  { rewrite Hpath.
    apply (parse_trimmed ("/api//" ++ rest) EmptyString rest); reflexivity. }
  assert (Hun : is_Err (value (discoverService "-service" w)) = true ->
                value (routeRequest r w)
                = http.Error "Service not available" 503).
  { intros He.
    destruct (value (discoverService "-service" w)) as [u|e] eqn:Hd;
      [discriminate|].
    rewrite (routeRequest_unavailable r w _ _ e Hp Hd). reflexivity. }
  split; [exact Hp|]. split; [|split; [exact Hun|split]].
  - destruct (value (discoverService "-service" w)) as [target|e] eqn:Hd.
    + rewrite (routeRequest_forward r w _ _ target Hp Hd). cbv zeta.
      cbn [events]. right. apply in_or_app. left.
      rewrite discoverService_events.
      destruct (consulapi.config_err (registry w)); left; reflexivity.
    + rewrite (routeRequest_unavailable r w _ _ e Hp Hd).
      cbn [events]. right. apply in_or_app. left.
      rewrite discoverService_events.
      destruct (consulapi.config_err (registry w)); left; reflexivity.
  - intros Hnone. rewrite (Hun (discoverService_none _ w Hnone)).
    reflexivity.
  - intros target Hd.
    destruct (discoverService_observed "-service" w) as (_ & Hfwd & _ & _).
    rewrite (routeRequest_forward r w _ _ target Hp Hd). cbv zeta.
    cbn [events value forwarded]. split; [|reflexivity].
    rewrite !forwarded_app, Hfwd.
    destruct (ServeHTTP_events target (http.set_URL_Path r ("/" ++ rest)) w)
      as (tail & -> & [-> | (e & ->)]); reflexivity.
Qed.

(** C10. The request handed to the reverse proxy is the inbound request
    with its URL path replaced by the forward path: its method, query
    string, headers and body, and the other parts of its URL, are the
    inbound request's. *)
Theorem forward_rewrites_only_path (r : http.Request) (w : World)
        (target : url.URL) (q : http.Request) :
  In (target, q) (forwarded (events (routeRequest r w))) ->
  (exists svc fwd,
      parse (url.Path (http.URL r)) = inr (svc, fwd)
      /\ q = http.set_URL_Path r fwd
      /\ url.Path (http.URL q) = fwd)
  /\ http.Method q = http.Method r
  /\ url.RawQuery (http.URL q) = url.RawQuery (http.URL r)
  /\ http.Hdr q = http.Hdr r
  /\ http.Body q = http.Body r
  /\ url.Scheme (http.URL q) = url.Scheme (http.URL r)
  /\ url.Host (http.URL q) = url.Host (http.URL r)
  /\ url.RawPath (http.URL q) = url.RawPath (http.URL r)
  /\ url.Fragment (http.URL q) = url.Fragment (http.URL r).
Proof.
  intros Hin.
  assert (H : exists svc fwd,
             parse (url.Path (http.URL r)) = inr (svc, fwd)
             /\ q = http.set_URL_Path r fwd).
  { revert Hin. route_cases r w; cbn [forwarded];
      rewrite ?forwarded_app;
      try (destruct (discoverService_observed svc w) as (_ & -> & _));
      cbn [forwarded app In]; intros Hin.
    - destruct Hin.
    - destruct Hin as [Heq | []]. injection Heq as <- <-. eauto.
    - destruct Hin as [Heq | []]. injection Heq as <- <-. eauto.
    - destruct Hin. }
  destruct H as (svc & fwd & Hp & ->).
  split; [exists svc, fwd; auto|]. repeat split; reflexivity.
Qed.

(** What is handed to the proxy is the inbound request with the
    forward path. *)
Lemma forwarded_request_shape (r : http.Request) (w : World)
      (target : url.URL) (q : http.Request) :
  In (target, q) (forwarded (events (routeRequest r w))) ->
  exists svc fwd,
    parse (url.Path (http.URL r)) = inr (svc, fwd)
    /\ q = http.set_URL_Path r fwd.
Proof.
  route_cases r w; cbn [forwarded];
    rewrite ?forwarded_app;
    try (destruct (discoverService_observed svc w) as (_ & -> & _));
    cbn [forwarded app In]; intros Hin.
  - destruct Hin.
  - destruct Hin as [Heq | []]. injection Heq as <- <-. eauto.
  - destruct Hin as [Heq | []]. injection Heq as <- <-. eauto.
  - destruct Hin.
Qed.

(* ------------------------------------------------------------------ *)
(** ** More on the Path Router *)

(** X1. The parser accepts exactly the paths that, with one leading
    slash removed if there is one, read [api/<svc>/<rest>] with a
    slash-free [<svc>]; the service name is then [svc ++ "-service"]
    and the forward path ["/" ++ rest]. *)
Theorem parse_accepts_iff (path name fwd : string) :
  parse path = inr (name, fwd) <->
  exists svc rest,
    no_slash svc = true
    /\ TrimPrefix path "/" = "api/" ++ svc ++ "/" ++ rest
    /\ name = svc ++ "-service"
    /\ fwd = "/" ++ rest.
Proof.
  split.
  - apply parse_accepts_inv.
  - intros (svc & rest & Hsvc & Htrim & -> & ->).
    apply parse_trimmed; assumption.
Qed.

(** X2. Stripping the prefix loses nothing: when a path that begins
    with a slash is accepted, the request path is [/api/<svc>] followed
    by the forward path, and the forward path begins with a slash. *)
Theorem parse_prefix_roundtrip (path name fwd : string) :
  parse path = inr (name, fwd) ->
  HasPrefix path "/" = true ->
  exists svc,
    no_slash svc = true
    /\ name = svc ++ "-service"
    /\ path = "/api/" ++ svc ++ fwd
    /\ HasPrefix fwd "/" = true.
Proof.
  intros Hp Hslash.
  apply parse_accepts_inv in Hp as (svc & rest & Hsvc & Htrim & -> & ->).
  apply HasPrefix_slash in Hslash as [q ->].
  rewrite TrimPrefix_slash in Htrim. subst q.
  exists svc. repeat split; assumption || reflexivity.
Qed.

(** A path that does not begin with a slash is its own trimmed form. *)
Lemma TrimPrefix_none (p : string) :
  HasPrefix p "/" = false -> TrimPrefix p "/" = p.
Proof.
  unfold HasPrefix, TrimPrefix.
  destruct (strip "/" p); [discriminate | reflexivity].
Qed.

(** X3. The leading slash is optional and single: a path without it is
    parsed like the same path with it, and a path that begins with two
    slashes is malformed. *)
Theorem parse_leading_slash (p : string) :
  (HasPrefix p "/" = false -> parse (String slash p) = parse p)
  /\ parse (String slash (String slash p)) = inl MalformedPath.
Proof.
  split.
  - intros H. unfold parse.
    rewrite TrimPrefix_slash, (TrimPrefix_none p H). reflexivity.
  - unfold parse. rewrite TrimPrefix_slash.
    change (String slash p) with (EmptyString ++ String slash p).
    rewrite (Split_app EmptyString p slash eq_refl).
    cbn [nth]. change (String.eqb EmptyString "api") with false.
    cbn [negb]. rewrite orb_true_r. reflexivity.
Qed.

(* ------------------------------------------------------------------ *)
(** ** More on the run of a request *)

(** X4. The gateway forwards only to the first healthy instance of the
    service named by the path: a request handed to the proxy goes to
    the parse of the endpoint of the first healthy instance registered
    under [svc ++ "-service"], and carries the forward path. *)
Theorem forward_only_to_first_healthy (r : http.Request) (w : World)
        (target : url.URL) (q : http.Request) :
  In (target, q) (forwarded (events (routeRequest r w))) ->
  exists svc rest first others,
    no_slash svc = true
    /\ TrimPrefix (url.Path (http.URL r)) "/" = "api/" ++ svc ++ "/" ++ rest
    /\ healthy_instances (registry w) (svc ++ "-service") = first :: others
    /\ consulapi.healthy first = true
    /\ consulapi.Name (consulapi.Service first) = svc ++ "-service"
    /\ url_Parse (endpoint first) = Ok target
    /\ url.Path (http.URL q) = "/" ++ rest.
Proof.
  intros Hin.
  destruct (parse_cases (url.Path (http.URL r)))
    as [Hp | (name & fwd & Hp)].
  - rewrite (routeRequest_malformed r w Hp) in Hin. destruct Hin.
  - destruct (discoverService_observed name w) as (_ & Hfwd & _ & _).
    destruct (value (discoverService name w)) as [t|err] eqn:Hd.
    + rewrite (routeRequest_forward r w name fwd t Hp Hd) in Hin.
      cbv zeta in Hin. cbn [events forwarded] in Hin.
      rewrite !forwarded_app, Hfwd in Hin.
      destruct (ServeHTTP_events t (http.set_URL_Path r fwd) w)
        as (tail & Hev & Htail).
      rewrite Hev in Hin.
      assert (Heq : (target, q) = (t, http.set_URL_Path r fwd)).
      { destruct Htail as [-> | (e & ->)]; cbn [forwarded app In] in Hin;
          destruct Hin as [Heq | []]; symmetry; exact Heq. }
      injection Heq as -> ->.
      apply parse_accepts_inv in Hp as (svc & rest & Hsvc & Htrim & -> & ->).
      rewrite discoverService_value in Hd.
      destruct (consulapi.config_err (registry w)); [discriminate|].
      destruct (consulapi.agent_err (registry w) (svc ++ "-service"));
        [discriminate|].
      destruct (healthy_instances (registry w) (svc ++ "-service"))
        as [|first others] eqn:Hh; [discriminate|].
      destruct (healthy_instances_In (registry w) (svc ++ "-service") first)
        as (_ & Hhealthy & Hname); [rewrite Hh; left; reflexivity|].
      exists svc, rest, first, others. repeat split; assumption.
    + rewrite (routeRequest_unavailable r w name fwd err Hp Hd) in Hin.
      cbn [events forwarded] in Hin.
      rewrite forwarded_app, Hfwd in Hin. destruct Hin.
Qed.

(** X5. A request that is not forwarded leaves the world as it found
    it: neither the registry nor the backends change when the gateway
    answers 400 or 503 itself. *)
Theorem not_forwarded_world_unchanged (r : http.Request) (w : World) :
  forwarded (events (routeRequest r w)) = [] ->
  world (routeRequest r w) = w.
Proof.
  route_cases r w; cbn [forwarded]; rewrite ?forwarded_app;
    try (destruct (discoverService_observed svc w) as (_ & -> & _));
    cbn [forwarded app]; intros H; try discriminate H; reflexivity.
Qed.

(** X6. Every query the gateway sends to the registry is untagged and
    passing-only, and asks for the service name that the parser derives
    from the request path; and nothing is forwarded without such a
    query having been made. *)
Theorem queries_are_passing_only (r : http.Request) (w : World) :
  (forall s t p,
      In (EvHealthService s t p) (events (routeRequest r w)) ->
      t = EmptyString /\ p = true
      /\ exists fwd, parse (url.Path (http.URL r)) = inr (s, fwd))
  /\ (forwarded (events (routeRequest r w)) <> [] ->
      exists name fwd,
        parse (url.Path (http.URL r)) = inr (name, fwd)
        /\ queried (events (routeRequest r w)) = [name]).
Proof.
  split.
  - intros s t p.
    route_cases r w; try resolution_events svc w; cbn [app In];
      intros Hin;
      repeat (destruct Hin as [Hin | Hin]; try discriminate Hin);
      try contradiction;
      injection Hin as <- <- <-; eauto.
  - intros Hne.
    destruct (parse_cases (url.Path (http.URL r)))
      as [Hp | (name & fwd & Hp)].
    + rewrite (routeRequest_malformed r w Hp) in Hne.
      exfalso. apply Hne. reflexivity.
    + destruct (discoverService_observed name w) as (_ & Hfwd & _ & _).
      destruct (value (discoverService name w)) as [t|err] eqn:Hd.
      * exists name, fwd. split; [exact Hp|].
        rewrite (routeRequest_forward r w name fwd t Hp Hd). cbv zeta.
        cbn [events queried]. rewrite !queried_app.
        destruct (ServeHTTP_events t (http.set_URL_Path r fwd) w)
          as (tail & -> & [-> | (e & ->)]);
          cbn [queried app]; rewrite app_nil_r;
          rewrite discoverService_events;
          rewrite discoverService_value in Hd;
          destruct (consulapi.config_err (registry w));
          try discriminate Hd; reflexivity.
      * rewrite (routeRequest_unavailable r w name fwd err Hp Hd) in Hne.
        cbn [events forwarded] in Hne.
        rewrite forwarded_app, Hfwd in Hne.
        exfalso. apply Hne. reflexivity.
Qed.

(* ------------------------------------------------------------------ *)
(** ** More on the Registry Resolver *)

(** X8. First match is sticky: once a name has a healthy instance,
    instances that come after it in the catalog, healthy or not, do not
    change what the name resolves to. *)
Theorem discoverService_first_match_sticky
        (name : string) (cfg : option error) (ag : string -> option error)
        (l more : list consulapi.ServiceEntry) (b : Backend) :
  healthy_instances (consulapi.mkRegistry cfg ag l) name <> [] ->
  value (discoverService name
           {| registry := consulapi.mkRegistry cfg ag (l ++ more);
              backend := b |})
  = value (discoverService name
             {| registry := consulapi.mkRegistry cfg ag l;
                backend := b |}).
Proof.
  intros Hne. rewrite !discoverService_value. cbn [registry].
  unfold healthy_instances in *.
  cbn [consulapi.config_err consulapi.agent_err consulapi.catalog] in *.
  rewrite filter_app.
  destruct (filter (consulapi.selected name EmptyString true) l);
    [congruence | reflexivity].
Qed.

End Gateway.

Arguments mkWorld {Backend} registry backend.
Arguments registry {Backend} w.
Arguments backend {Backend} w.
Arguments value {Backend A} r.
Arguments world {Backend A} r.
Arguments events {Backend A} r.
Arguments discoverService {Backend} url_Parse serviceName w.
Arguments routeRequest {Backend} url_Parse RoundTrip r w.
Arguments reported_as_failure {Backend} resp run.
Arguments routing_decision {Backend} run.
Arguments stable_backend {Backend} RoundTrip b.

(* ------------------------------------------------------------------ *)
(** ** The gRPC error translator *)

(** Every code outside the eight rows of the table is a 500. *)
Lemma table_status_other (c : codes.Code) :
  ~ In c [codes.NotFound; codes.InvalidArgument; codes.AlreadyExists;
          codes.PermissionDenied; codes.Unauthenticated;
          codes.FailedPrecondition; codes.Unimplemented;
          codes.Unavailable] ->
  handlers.table_status c = 500%Z.
Proof.
  intros Hnot. unfold handlers.table_status, handlers.status_table.
  cbn [find fst snd].
  repeat match goal with
         | |- context [N.eqb ?k c] =>
             destruct (N.eqb_spec k c) as [Heq | _];
             [exfalso; apply Hnot; rewrite <- Heq; simpl; tauto|]
         end.
  reflexivity.
Qed.

(** The handler against the table, error by error. *)
Lemma handleGRPCError_table (err : status.GoError) :
  handlers.handleGRPCError err =
  match err with
  | status.nil_error => http.Error EmptyString 500
  | status.grpc_error c msg => http.Error msg (handlers.table_status c)
  | status.other_error _ => http.Error "internal server error" 500
  end.
Proof.
  destruct err as [|c msg|text]; [reflexivity| |reflexivity].
  unfold handlers.handleGRPCError, handlers.table_status,
    handlers.status_table.
  cbn [status.FromError status.Code status.Message status.code
       status.message negb find fst snd].
  repeat match goal with
         | |- context [N.eqb c ?k] =>
             rewrite (N.eqb_sym c k); destruct (N.eqb_spec k c)
         end; reflexivity.
Qed.

(** C9, as the code has it.  The translator is a total function of the
    error.  A gRPC error is answered with the status of the table: 404,
    400, 409, 403, 401, 412, 501 and 503 for NotFound, InvalidArgument,
    AlreadyExists, PermissionDenied, Unauthenticated,
    FailedPrecondition, Unimplemented and Unavailable, and 500 for
    every other code; its body is the status message followed by a line
    feed.  Any other error is answered 500 with the text
    [internal server error] and a line feed, and a nil error counts as
    code OK with an empty message. *)
Theorem handleGRPCError_status :
  (forall (c : codes.Code) (msg : string),
      http.StatusCode (handlers.handleGRPCError (status.grpc_error c msg))
      = handlers.table_status c
      /\ http.RespBody (handlers.handleGRPCError (status.grpc_error c msg))
         = msg ++ String (ascii_of_nat 10) EmptyString)
  /\ map (fun c => http.StatusCode
                     (handlers.handleGRPCError (status.grpc_error c "m")))
         [codes.NotFound; codes.InvalidArgument; codes.AlreadyExists;
          codes.PermissionDenied; codes.Unauthenticated;
          codes.FailedPrecondition; codes.Unimplemented; codes.Unavailable]
     = [404; 400; 409; 403; 401; 412; 501; 503]%Z
  /\ (forall (c : codes.Code) (msg : string),
      ~ In c [codes.NotFound; codes.InvalidArgument; codes.AlreadyExists;
              codes.PermissionDenied; codes.Unauthenticated;
              codes.FailedPrecondition; codes.Unimplemented;
              codes.Unavailable] ->
      http.StatusCode (handlers.handleGRPCError (status.grpc_error c msg))
      = 500%Z)
  /\ (forall text : string,
      http.StatusCode (handlers.handleGRPCError (status.other_error text))
      = 500%Z
      /\ http.RespBody (handlers.handleGRPCError (status.other_error text))
         = "internal server error" ++ String (ascii_of_nat 10) EmptyString)
  /\ (http.StatusCode (handlers.handleGRPCError status.nil_error) = 500%Z
      /\ http.RespBody (handlers.handleGRPCError status.nil_error)
         = String (ascii_of_nat 10) EmptyString).
Proof.
  split; [|split; [reflexivity|split; [|split]]].
  - intros c msg. rewrite handleGRPCError_table. split; reflexivity.
  - intros c msg Hnot.
    rewrite handleGRPCError_table, (table_status_other c Hnot). reflexivity.
  - intros text. split; reflexivity.
  - split; reflexivity.
Qed.

(* ------------------------------------------------------------------ *)
(** ** More on the gRPC error translator *)

(** The status of a listed code tells the code. *)
Lemma table_status_inv (c : codes.Code) :
  handlers.table_status c <> 500%Z ->
  In (c, handlers.table_status c) handlers.status_table.
Proof.
  unfold handlers.table_status.
  destruct (find (fun row => N.eqb (fst row) c) handlers.status_table)
    as [row|] eqn:Hfind; [|congruence].
  intros _. apply find_some in Hfind as [Hin Heq].
  apply N.eqb_eq in Heq. subst c. destruct row. exact Hin.
Qed.

(** X9. The translator never answers with a success: whatever the
    error, a nil error and the code OK included, the status is one of
    400, 401, 403, 404, 409, 412, 500, 501 and 503, and the reply is
    plain text. *)
Theorem handleGRPCError_never_success (err : status.GoError) :
  In (http.StatusCode (handlers.handleGRPCError err))
     [400; 401; 403; 404; 409; 412; 500; 501; 503]%Z
  /\ (400 <= http.StatusCode (handlers.handleGRPCError err) <= 503)%Z
  /\ http.RespHdr (handlers.handleGRPCError err)
     = [("Content-Type", ["text/plain; charset=utf-8"]);
        ("X-Content-Type-Options", ["nosniff"])].
Proof.
  assert (H : In (http.StatusCode (handlers.handleGRPCError err))
                 [400; 401; 403; 404; 409; 412; 500; 501; 503]%Z).
  { rewrite handleGRPCError_table.
    destruct err as [|c msg|text]; cbn [http.Error http.StatusCode];
      [simpl; tauto | | simpl; tauto].
    destruct (Z.eq_dec (handlers.table_status c) 500) as [-> | Hne];
      [simpl; tauto|].
    apply table_status_inv in Hne. unfold handlers.status_table in Hne.
    cbn [In] in Hne.
    repeat (destruct Hne as [Hne | Hne];
            [injection Hne as _ <-; simpl; tauto|]).
    destruct Hne. }
  split; [exact H|]. split.
  - cbn [In] in H.
    repeat (destruct H as [H | H]; [rewrite <- H; lia|]). destruct H.
  - rewrite handleGRPCError_table. destruct err; reflexivity.
Qed.

(** X10. Below 500 the translation loses nothing: two gRPC errors that
    are answered with the same status, other than 500, carry the same
    code. *)
Theorem handleGRPCError_status_tells_code
        (c1 c2 : codes.Code) (m1 m2 : string) :
  http.StatusCode (handlers.handleGRPCError (status.grpc_error c1 m1))
  = http.StatusCode (handlers.handleGRPCError (status.grpc_error c2 m2)) ->
  http.StatusCode (handlers.handleGRPCError (status.grpc_error c1 m1))
  <> 500%Z ->
  c1 = c2.
Proof.
  rewrite !handleGRPCError_table. cbn [http.Error http.StatusCode].
  intros Heq Hne.
  pose proof (table_status_inv c1 Hne) as H1.
  rewrite Heq in Hne. pose proof (table_status_inv c2 Hne) as H2.
  rewrite Heq in H1. revert H1 H2.
  generalize (handlers.table_status c2). intros st H1 H2.
  unfold handlers.status_table in *. cbn [In] in *.
  repeat (destruct H1 as [H1 | H1]; try contradiction);
    repeat (destruct H2 as [H2 | H2]; try contradiction);
    congruence.
Qed.

(* ------------------------------------------------------------------ *)
(** ** Registration and resolution *)

Lemma filter_nil_app {A : Type} (P : A -> bool) (l more : list A) :
  filter P l = [] -> filter P (l ++ more) = filter P more.
Proof. intros H. rewrite filter_app, H. reflexivity. Qed.

(** Registering under an ID that is not in the catalog appends the
    instance, not yet healthy when it has a check. *)
Lemma ServiceRegister_fresh (reg : consulapi.Registry)
      (r : agent.AgentServiceRegistration) :
  existsb (agent.has_ID (agent.ID r)) (consulapi.catalog reg) = false ->
  consulapi.catalog (snd (agent.ServiceRegister None reg r))
  = (consulapi.catalog reg ++ [agent.entry_of None r])%list.
Proof.
  intros Hfresh. cbn [agent.ServiceRegister snd consulapi.catalog].
  assert (Hfind : find (agent.has_ID (agent.ID r)) (consulapi.catalog reg)
                  = None).
  { destruct (find _ _) as [e|] eqn:Hf; [|reflexivity].
    apply find_some in Hf as [Hin He].
    assert (Hex : existsb (agent.has_ID (agent.ID r))
                          (consulapi.catalog reg) = true)
      by (apply existsb_exists; eauto).
    congruence. }
  rewrite Hfind. f_equal.
  induction (consulapi.catalog reg) as [|e l IH]; [reflexivity|].
  cbn [existsb] in Hfresh. apply orb_false_iff in Hfresh as [He Hl].
  cbn [filter]. rewrite He. cbn [negb]. f_equal. apply IH.
  - exact Hl.
  - cbn [find] in Hfind. rewrite He in Hfind. exact Hfind.
Qed.

(** A probe of an ID changes no instance registered under another. *)
Lemma check_result_fresh (id : string) (status : Z)
      (l : list consulapi.ServiceEntry) :
  existsb (agent.has_ID id) l = false ->
  map (fun e =>
         if agent.has_ID id e
         then {| consulapi.Service := consulapi.Service e;
                 consulapi.healthy := agent.passing status |}
         else e) l = l.
Proof.
  induction l as [|e l IH]; [reflexivity|].
  cbn [existsb map]. intros H. apply orb_false_iff in H as [He Hl].
  rewrite He, (IH Hl). reflexivity.
Qed.

(** The registry after a service has registered on a fresh ID and its
    check has been probed once. *)
Lemma registered_probed_catalog (reg : consulapi.Registry)
      (r : agent.AgentServiceRegistration) (status : Z) :
  existsb (agent.has_ID (agent.ID r)) (consulapi.catalog reg) = false ->
  agent.Check r <> None ->
  consulapi.catalog
    (agent.check_result (agent.ID r) status
                        (snd (agent.ServiceRegister None reg r)))
  = (consulapi.catalog reg
     ++ [{| consulapi.Service :=
              consulapi.Service (agent.entry_of None r);
            consulapi.healthy := agent.passing status |}])%list.
Proof.
  intros Hfresh Hcheck. unfold agent.check_result.
  cbn [consulapi.catalog]. rewrite (ServiceRegister_fresh reg r Hfresh).
  rewrite map_app, (check_result_fresh _ _ _ Hfresh).
  cbn [map]. unfold agent.has_ID at 1.
  cbn [agent.entry_of consulapi.Service consulapi.ID].
  rewrite String.eqb_refl. reflexivity.
Qed.

Section Deployment.

Variable Backend : Type.
Variable url_Parse : string -> result url.URL.
Variable RoundTrip :
  Backend -> url.URL -> http.Request -> RoundTripResult * Backend.

(** A service that registers on a fresh ID, under a name without a
    healthy instance, cannot be resolved before its first probe, and
    after the probe it resolves to its own address and port exactly
    when the probe passed. *)
Lemma register_probe_resolve (r : agent.AgentServiceRegistration)
      (reg : consulapi.Registry) (b : Backend) (status : Z) :
  consulapi.config_err reg = None ->
  consulapi.agent_err reg (agent.Name r) = None ->
  healthy_instances reg (agent.Name r) = [] ->
  existsb (agent.has_ID (agent.ID r)) (consulapi.catalog reg) = false ->
  agent.Check r <> None ->
  let registered := snd (agent.ServiceRegister None reg r) in
  let probed := agent.check_result (agent.ID r) status registered in
  is_Err (value (discoverService url_Parse (agent.Name r)
                                 (mkWorld registered b))) = true
  /\ value (discoverService url_Parse (agent.Name r) (mkWorld probed b))
     = if agent.passing status
       then url_Parse ("http://" ++ agent.Address r ++ ":"
                       ++ itoa (agent.Port r))
       else Err ("no healthy instances available for '"
                 ++ agent.Name r ++ "'").
Proof.
  intros Hcfg Hag Hnone Hfresh Hcheck registered probed.
  split.
  - apply discoverService_none. cbn [registry].
    unfold healthy_instances in *. subst registered.
    rewrite (ServiceRegister_fresh reg r Hfresh).
    rewrite (filter_nil_app _ _ _ Hnone).
    cbn [filter]. unfold consulapi.selected.
    cbn [agent.entry_of consulapi.healthy].
    destruct (agent.Check r); [|congruence].
    cbn [negb orb]. rewrite andb_false_r. reflexivity.
  - rewrite discoverService_value. cbn [registry].
    assert (Hc : consulapi.config_err probed = None) by exact Hcfg.
    assert (Ha : consulapi.agent_err probed (agent.Name r) = None)
      by exact Hag.
    rewrite Hc, Ha.
    unfold healthy_instances in *. subst probed registered.
    rewrite (registered_probed_catalog reg r status Hfresh Hcheck).
    rewrite (filter_nil_app _ _ _ Hnone).
    cbn [filter]. unfold consulapi.selected.
    cbn [agent.entry_of consulapi.Service consulapi.Name
         consulapi.Tags consulapi.healthy].
    rewrite String.eqb_refl. cbn [String.eqb orb negb andb].
    destruct (agent.passing status); reflexivity.
Qed.

(** X12. Register, probe, resolve.  After the users service has
    registered on host [h] with a reachable registry that knew neither
    its ID nor a healthy instance of its name, the gateway cannot
    resolve [users-service] until the health check has been probed;
    once the probe has been answered by [handleHealthCheck], the name
    resolves to [http://h:8081]. *)
Theorem users_register_probe_resolve
        (h : string) (reg : consulapi.Registry) (b : Backend) :
  consulapi.config_err reg = None ->
  consulapi.agent_err reg "users-service" = None ->
  healthy_instances reg "users-service" = [] ->
  existsb (agent.has_ID ("users-service-" ++ h)) (consulapi.catalog reg)
  = false ->
  let run := users_service.registerWithConsul (Ok h) None reg in
  let probed :=
    agent.check_result
      ("users-service-" ++ h)
      (http.StatusCode users_service.handleHealthCheck)
      (reg_registry run) in
  reg_err run = None
  /\ is_Err (value (discoverService url_Parse "users-service"
                                    (mkWorld (reg_registry run) b))) = true
  /\ value (discoverService url_Parse "users-service" (mkWorld probed b))
     = url_Parse ("http://" ++ h ++ ":8081").
Proof.
  intros Hcfg Hag Hnone Hfresh run probed.
  assert (Hrun : run = {| reg_err := None;
                          reg_registry :=
                            snd (agent.ServiceRegister
                                   None reg (users_service.registration h));
                          reg_log := reg_log run |}).
  { subst run. unfold users_service.registerWithConsul, consulapi.NewClient.
    rewrite Hcfg. reflexivity. }
  destruct (register_probe_resolve
              (users_service.registration h) reg b
              (http.StatusCode users_service.handleHealthCheck)
              Hcfg Hag Hnone Hfresh) as [Hbefore Hafter];
    [discriminate|].
  subst probed. rewrite Hrun. cbn [reg_err reg_registry].
  split; [reflexivity|]. split; [exact Hbefore | exact Hafter].
Qed.

(** X13. End to end.  With the users service registered on host [h] and
    probed as in X12, and [http://h:8081] parsing to [target], a
    request for [/api/users/<rest>] asks the registry for
    [users-service] once and is handed to the proxy once, for [target],
    with the path [/<rest>]. *)
Theorem registered_users_request_forwarded
        (h : string) (reg : consulapi.Registry) (b : Backend)
        (r : http.Request) (rest : string) (target : url.URL) :
  consulapi.config_err reg = None ->
  consulapi.agent_err reg "users-service" = None ->
  healthy_instances reg "users-service" = [] ->
  existsb (agent.has_ID ("users-service-" ++ h)) (consulapi.catalog reg)
  = false ->
  url_Parse ("http://" ++ h ++ ":8081") = Ok target ->
  url.Path (http.URL r) = "/api/users/" ++ rest ->
  let probed :=
    agent.check_result
      ("users-service-" ++ h)
      (http.StatusCode users_service.handleHealthCheck)
      (reg_registry (users_service.registerWithConsul (Ok h) None reg)) in
  let run := routeRequest url_Parse RoundTrip r (mkWorld probed b) in
  queried (events run) = ["users-service"]
  /\ forwarded (events run)
     = [(target, http.set_URL_Path r ("/" ++ rest))].
Proof.
  intros Hcfg Hag Hnone Hfresh Hurl Hpath probed run.
  assert (Hres : value (discoverService url_Parse "users-service"
                                        (mkWorld probed b)) = Ok target).
  { destruct (register_probe_resolve
                (users_service.registration h) reg b
                (http.StatusCode users_service.handleHealthCheck)
                Hcfg Hag Hnone Hfresh) as [_ Hafter]; [discriminate|].
    rewrite <- Hurl. subst probed.
    unfold users_service.registerWithConsul, consulapi.NewClient.
    rewrite Hcfg. exact Hafter. }
  assert (Hp : parse (url.Path (http.URL r))
               = inr ("users-service", "/" ++ rest)).
  { rewrite Hpath.
    apply (parse_trimmed ("/api/users/" ++ rest) "users" rest);
      reflexivity. }
  pose proof (routing_decision_spec
                Backend url_Parse RoundTrip r (mkWorld probed b)) as Hdec.
  rewrite Hp, Hres in Hdec. unfold routing_decision in Hdec.
  apply pair_equal_spec in Hdec as [Hq Hf].
  subst run. split.
  - rewrite Hq, discoverService_events.
    assert (Hc : consulapi.config_err (registry (mkWorld probed b)) = None)
      by (subst probed; cbn; unfold users_service.registerWithConsul,
          consulapi.NewClient; rewrite Hcfg; exact Hcfg).
    rewrite Hc. reflexivity.
  - destruct (forwarded
                (events (routeRequest url_Parse RoundTrip r
                                      (mkWorld probed b))))
      as [|[t q] [|x l]] eqn:Hfw; try discriminate Hf.
    cbn [map fst snd] in Hf. injection Hf as -> Hq'.
    destruct (forwarded_request_shape
                Backend url_Parse RoundTrip r (mkWorld probed b) target q)
      as (svc & fwd & Hp' & ->).
    { rewrite Hfw. left. reflexivity. }
    rewrite Hp in Hp'. injection Hp' as <- <-. reflexivity.
Qed.

(** Registering and probing a service does not change the healthy set
    of a name it is not registered under. *)
Lemma register_probe_other (r : agent.AgentServiceRegistration)
      (reg : consulapi.Registry) (status : Z) (name : string) :
  existsb (agent.has_ID (agent.ID r)) (consulapi.catalog reg) = false ->
  agent.Check r <> None ->
  agent.Name r <> name ->
  healthy_instances
    (agent.check_result (agent.ID r) status
                        (snd (agent.ServiceRegister None reg r))) name
  = healthy_instances reg name.
Proof.
  intros Hfresh Hcheck Hname. unfold healthy_instances.
  rewrite (registered_probed_catalog reg r status Hfresh Hcheck).
  rewrite filter_app. cbn [filter]. unfold consulapi.selected at 2.
  cbn [agent.entry_of consulapi.Service consulapi.Name].
  apply String.eqb_neq in Hname. rewrite Hname. cbn [andb].
  apply app_nil_r.
Qed.

(** X14. The two services do not stand in each other's way.  On one
    host [h], with a reachable registry that knew neither of their IDs
    nor a healthy instance of their names, once each has registered and
    been probed through its health handler, [users-service] resolves to
    [http://h:8081] and [products-service] to [http://h:8082]. *)
Theorem users_and_products_coexist
        (h : string) (reg : consulapi.Registry) (b : Backend) :
  consulapi.config_err reg = None ->
  consulapi.agent_err reg "users-service" = None ->
  consulapi.agent_err reg "products-service" = None ->
  healthy_instances reg "users-service" = [] ->
  healthy_instances reg "products-service" = [] ->
  existsb (agent.has_ID ("users-service-" ++ h)) (consulapi.catalog reg)
  = false ->
  existsb (agent.has_ID ("products-service-" ++ h)) (consulapi.catalog reg)
  = false ->
  let users_up :=
    agent.check_result
      ("users-service-" ++ h)
      (http.StatusCode users_service.handleHealthCheck)
      (reg_registry (users_service.registerWithConsul (Ok h) None reg)) in
  let both_up :=
    agent.check_result
      ("products-service-" ++ h)
      (http.StatusCode products_service.handleHealthStatus)
      (reg_registry
         (products_service.registerWithConsul (Ok h) None users_up)) in
  value (discoverService url_Parse "users-service" (mkWorld both_up b))
  = url_Parse ("http://" ++ h ++ ":8081")
  /\ value (discoverService url_Parse "products-service"
                            (mkWorld both_up b))
     = url_Parse ("http://" ++ h ++ ":8082").
Proof.
  intros Hcfg Hau Hap Hnu Hnp Hfu Hfp users_up both_up.
  assert (Hu : users_up
               = agent.check_result
                   ("users-service-" ++ h) 200
                   (snd (agent.ServiceRegister
                           None reg (users_service.registration h)))).
  { subst users_up.
    unfold users_service.registerWithConsul, consulapi.NewClient.
    rewrite Hcfg. reflexivity. }
  assert (Hcfg_u : consulapi.config_err users_up = None)
    by (rewrite Hu; exact Hcfg).
  assert (Hb : both_up
               = agent.check_result
                   ("products-service-" ++ h) 200
                   (snd (agent.ServiceRegister
                           None users_up
                           (products_service.registration h)))).
  { subst both_up.
    unfold products_service.registerWithConsul, consulapi.NewClient.
    rewrite Hcfg_u. reflexivity. }
  clearbody both_up users_up. subst both_up.
  assert (Hcat_u :
            consulapi.catalog users_up
            = (consulapi.catalog reg
               ++ [{| consulapi.Service :=
                        consulapi.Service
                          (agent.entry_of
                             None (users_service.registration h));
                      consulapi.healthy := true |}])%list).
  { rewrite Hu.
    apply (registered_probed_catalog
             reg (users_service.registration h) 200 Hfu).
    discriminate. }
  assert (Hfp' : existsb (agent.has_ID ("products-service-" ++ h))
                         (consulapi.catalog users_up) = false).
  { rewrite Hcat_u, existsb_app, Hfp. reflexivity. }
  assert (Hnp' : healthy_instances users_up "products-service" = []).
  { rewrite Hu.
    rewrite (register_probe_other
               (users_service.registration h) reg _ "products-service"
               Hfu); [exact Hnp | discriminate | discriminate]. }
  assert (Hap' : consulapi.agent_err users_up "products-service" = None)
    by (rewrite Hu; exact Hap).
  split.
  - assert (Hh : healthy_instances
                   (agent.check_result
                      ("products-service-" ++ h) 200
                      (snd (agent.ServiceRegister
                              None users_up
                              (products_service.registration h))))
                   "users-service"
                 = healthy_instances users_up "users-service").
    { apply (register_probe_other
               (products_service.registration h) users_up _
               "users-service" Hfp'); discriminate. }
    rewrite discoverService_value. cbn [registry].
    cbn [agent.check_result agent.ServiceRegister snd
         consulapi.config_err consulapi.agent_err].
    rewrite Hcfg_u.
    assert (Hau' : consulapi.agent_err users_up "users-service" = None)
      by (rewrite Hu; exact Hau).
    rewrite Hau'.
    change (healthy_instances _ "users-service")
      with (healthy_instances
              (agent.check_result
                 ("products-service-" ++ h) 200
                 (snd (agent.ServiceRegister
                         None users_up
                         (products_service.registration h))))
              "users-service").
    rewrite Hh. unfold healthy_instances in *.
    rewrite Hcat_u, (filter_nil_app _ _ _ Hnu). reflexivity.
  - destruct (register_probe_resolve
                (products_service.registration h) users_up b 200
                Hcfg_u Hap' Hnp' Hfp') as [_ Hafter]; [discriminate|].
    exact Hafter.
Qed.

End Deployment.

(* ------------------------------------------------------------------ *)
(** ** The properties on the small deployment

    The gateway in front of a stateless backend, with the stand-in
    parser, evaluated on concrete requests and registries. *)

Lemma parse_path_router_witness :
  parse "/api/users/42" = inr ("users-service", "/42")
  /\ parse "/api/users/" = inr ("users-service", "/")
  /\ parse "/bogus" = inl MalformedPath
  /\ parse "/api/users" = inl MalformedPath.
Proof.
  pose proof (parse_path_router
                unit example.url_Parse
                (example.always (example.reply 200 "ok")))
    as (Hform & Hempty & Hbad & _).
  split; [apply (Hform "users" "42"); reflexivity|].
  split; [apply (Hempty "users"); reflexivity|].
  split.
  - apply (Hbad "/bogus"); [reflexivity|].
    left. intros [q Hq]. discriminate Hq.
  - apply (Hbad "/api/users"); [reflexivity|].
    right. exists "users". split; reflexivity.
Defined.

Lemma failure_status_witness :
  let route :=
    routeRequest example.url_Parse
                 (example.always (example.reply 200 "ok")) in
  let up := mkWorld (example.registry_of [example.users_up]) tt in
  let sick :=
    mkWorld (example.registry_of [example.users_sick; example.products_up])
            tt in
  http.StatusCode (value (route (example.request "GET" "/bogus") up))
  = 400%Z
  /\ http.StatusCode
       (value (route (example.request "GET" "/api/users/42") sick))
     = 503%Z.
Proof.
  intros route up sick. split.
  - apply (failure_status
             unit example.url_Parse
             (example.always (example.reply 200 "ok"))
             (example.request "GET" "/bogus") up).
    reflexivity.
  - apply (failure_status
             unit example.url_Parse
             (example.always (example.reply 200 "ok"))
             (example.request "GET" "/api/users/42") sick)
      with (svc := "users-service") (fwd := "/42"); reflexivity.
Defined.

(** With the agent unreachable, a name with a healthy instance does not
    resolve: the query's error is returned. *)
Lemma resolve_unreachable_registry :
  healthy_instances (example.unreachable [example.users_up]) "users-service"
  = [example.users_up]
  /\ value (discoverService
              example.url_Parse "users-service"
              (mkWorld (example.unreachable [example.users_up]) tt))
     = Err "consul query failed for 'users-service': connection refused".
Proof. split; reflexivity. Qed.

Lemma discoverService_first_healthy_witness :
  let both :=
    mkWorld (example.registry_of
               [example.users_sick; example.products_up; example.users_up])
            tt in
  let sick :=
    mkWorld (example.registry_of [example.users_sick; example.products_up])
            tt in
  let down := mkWorld (example.unreachable [example.users_up]) tt in
  value (discoverService example.url_Parse "users-service" both)
  = example.url_Parse "http://h1:8081"
  /\ is_Err (value (discoverService example.url_Parse "users-service" sick))
     = true
  /\ value (discoverService example.url_Parse "users-service" down)
     = Err "consul query failed for 'users-service': connection refused".
Proof.
  intros both sick down. split; [|split].
  - apply (discoverService_first_healthy
             unit example.url_Parse "users-service" both)
      with (first := example.users_up) (rest := []); reflexivity.
  - apply (discoverService_first_healthy
             unit example.url_Parse "users-service" sick).
    reflexivity.
  - destruct (discoverService_first_healthy
                unit example.url_Parse "users-service" down)
      as (_ & _ & _ & _ & Hquery & _).
    apply (Hquery eq_refl "connection refused"). reflexivity.
Defined.

(** A backend's 500 reaches the caller as the backend sent it, and
    nothing about it is reported as a failure. *)
Lemma backend_500_not_reported :
  let boom := example.reply 500 "boom" in
  let run :=
    routeRequest example.url_Parse (example.always boom)
                 (example.request "GET" "/api/users/42")
                 (mkWorld (example.registry_of [example.users_up]) tt) in
  forwarded (events run) <> []
  /\ (500 <= http.StatusCode boom < 600)%Z
  /\ value run = boom
  /\ ~ reported_as_failure boom run.
Proof.
  intros boom run.
  split; [discriminate|].
  split; [vm_compute; split; [discriminate | reflexivity]|].
  split; [reflexivity|].
  unfold reported_as_failure.
  intros [Hne | [Hne | (l & Hin & Hreason)]];
    [apply Hne; reflexivity | apply Hne; reflexivity |].
  vm_compute in Hin.
  destruct Hin as [<- | [<- | [<- | []]]]; discriminate Hreason.
Qed.

Lemma backend_response_relayed_witness :
  let run :=
    routeRequest example.url_Parse (example.always example.boom_closing)
                 (example.request "GET" "/api/users/42")
                 (mkWorld (example.registry_of [example.users_up]) tt) in
  http.StatusCode (value run) = 500%Z
  /\ http.RespBody (value run) = "boom"
  /\ http.RespHdr (value run) = [("Content-Type", ["text/plain"])].
Proof.
  intros run.
  destruct (backend_response_relayed
              unit example.url_Parse (example.always example.boom_closing)
              (example.request "GET" "/api/users/42")
              (mkWorld (example.registry_of [example.users_up]) tt)
              "users-service" "/42"
              (url.mkURL "http" "h1:8081" EmptyString EmptyString
                         EmptyString EmptyString)
              example.boom_closing tt)
    as (Hstatus & Hbody & Hhdr & _); try reflexivity.
  split; [exact Hstatus|]. split; [exact Hbody|].
  apply Hhdr. discriminate.
Defined.



Lemma single_attempt_witness :
  forwarded
    (events
       (routeRequest
          example.url_Parse (example.always (example.reply 200 "ok"))
          (example.request "GET" "/api/users/42")
          (mkWorld (example.registry_of [example.users_sick]) tt)))
  = [].
Proof.
  apply (single_attempt
           unit example.url_Parse (example.always (example.reply 200 "ok"))
           (example.request "GET" "/api/users/42")
           (mkWorld (example.registry_of [example.users_sick]) tt))
    with (svc := "users-service") (fwd := "/42"); reflexivity.
Defined.

Lemma repeated_get_same_response_witness :
  let route :=
    routeRequest example.url_Parse
                 (example.always (example.reply 200 "ok")) in
  let r := example.request "GET" "/api/users/42" in
  let w := mkWorld (example.registry_of [example.users_up]) tt in
  value (route r (world (route r w))) = value (route r w).
Proof.
  intros route r w.
  apply (repeated_get_same_response
           unit example.url_Parse (example.always (example.reply 200 "ok")));
    [reflexivity|].
  intros target q res b' _ H. injection H as <- _. reflexivity.
Defined.

(** Stability of the backend is needed: a backend that counts its
    requests answers the second of two identical [GET]s differently. *)
Remark counting_backend_differs :
  let route := routeRequest example.url_Parse example.counting in
  let r := example.request "GET" "/api/users/42" in
  let w := mkWorld (example.registry_of [example.users_up]) 0 in
  value (route r w) = example.reply 200 "0"
  /\ value (route r (world (route r w))) = example.reply 200 "1".
Proof. split; reflexivity. Qed.

(** With a healthy instance registered under [-service], a request for
    [/api//x] is forwarded and answered by the backend; so it is for a
    [CONNECT], whose path no [ServeMux] cleans before the handler. *)
Lemma empty_token_forwarded :
  let route :=
    routeRequest example.url_Parse
                 (example.always (example.reply 200 "ok")) in
  let w := mkWorld (example.registry_of [example.dash_up]) tt in
  let run := route (example.request "GET" "/api//x") w in
  let run' := route (example.request "CONNECT" "/api//x") w in
  value run = example.reply 200 "ok"
  /\ http.StatusCode (value run) <> 503%Z
  /\ map snd (forwarded (events run))
     = [http.set_URL_Path (example.request "GET" "/api//x") "/x"]
  /\ http.StatusCode (value run') = 200%Z
  /\ map snd (forwarded (events run'))
     = [http.set_URL_Path (example.request "CONNECT" "/api//x") "/x"].
Proof.
  intros route w run run'. split; [reflexivity|].
  split; [discriminate|]. repeat split.
Qed.

Lemma empty_service_token_witness :
  let r := example.request "GET" "/api//x" in
  let route :=
    routeRequest example.url_Parse
                 (example.always (example.reply 200 "ok")) in
  parse "/api//x" = inr ("-service", "/x")
  /\ http.StatusCode
       (value (route r (mkWorld (example.registry_of [example.users_up])
                                tt))) = 503%Z
  /\ forwarded
       (events (route r (mkWorld (example.registry_of [example.dash_up])
                                 tt)))
     = [(url.mkURL "http" "h3:8083" EmptyString EmptyString
                   EmptyString EmptyString,
         http.set_URL_Path r "/x")].
Proof.
  intros r route. split; [|split].
  - apply (empty_service_token
             unit example.url_Parse (example.always (example.reply 200 "ok"))
             r (mkWorld (example.registry_of [example.users_up]) tt) "x").
    reflexivity.
  - apply (empty_service_token
             unit example.url_Parse (example.always (example.reply 200 "ok"))
             r (mkWorld (example.registry_of [example.users_up]) tt) "x");
      reflexivity.
  - destruct (empty_service_token
                unit example.url_Parse
                (example.always (example.reply 200 "ok"))
                r (mkWorld (example.registry_of [example.dash_up]) tt) "x"
                eq_refl) as (_ & _ & _ & _ & Hfwd).
    apply Hfwd. reflexivity.
Defined.

Lemma forward_rewrites_only_path_witness :
  let r := example.request "POST" "/api/users/42" in
  let q := http.set_URL_Path r "/42" in
  url.RawQuery (http.URL q) = "verbose=1"
  /\ http.Method q = "POST"
  /\ http.Hdr q = [("Accept", ["text/plain"])].
Proof.
  intros r q.
  destruct (forward_rewrites_only_path
              unit example.url_Parse
              (example.always (example.reply 200 "ok"))
              r (mkWorld (example.registry_of [example.users_up]) tt)
              (url.mkURL "http" "h1:8081" EmptyString EmptyString
                         EmptyString EmptyString)
              q)
    as (_ & Hm & Hq & Hh & _); [left; reflexivity|].
  split; [exact Hq|]. split; [exact Hm | exact Hh].
Defined.

(** The body that answers a gRPC error is not the status message
    itself: [http.Error] ends it with a line feed. *)
Lemma grpc_message_body_has_line_feed :
  let resp :=
    handlers.handleGRPCError
      (status.grpc_error codes.NotFound "no such user") in
  http.StatusCode resp = 404%Z
  /\ http.RespBody resp <> "no such user"
  /\ String.length (http.RespBody resp)
     = S (String.length "no such user").
Proof.
  intros resp. split; [reflexivity|]. split; [discriminate | reflexivity].
Qed.

Lemma handleGRPCError_status_witness :
  http.StatusCode
    (handlers.handleGRPCError (status.grpc_error codes.DataLoss "lost"))
  = 500%Z.
Proof.
  destruct handleGRPCError_status as (_ & _ & Hother & _).
  apply Hother. simpl. intros H.
  repeat (destruct H as [H | H]; [discriminate H|]). exact H.
Defined.

(* ------------------------------------------------------------------ *)
(** ** The further properties on the small deployment *)

Lemma parse_prefix_roundtrip_witness :
  exists svc,
    no_slash svc = true
    /\ "users-service" = svc ++ "-service"
    /\ "/api/users/a/b/" = "/api/" ++ svc ++ "/a/b/"
    /\ strings.HasPrefix "/a/b/" "/" = true.
Proof.
  apply (parse_prefix_roundtrip "/api/users/a/b/" "users-service" "/a/b/");
    reflexivity.
Defined.

Lemma parse_leading_slash_witness :
  parse "/api/users/42" = parse "api/users/42".
Proof.
  apply (parse_leading_slash "api/users/42"). reflexivity.
Defined.

Lemma forward_only_to_first_healthy_witness :
  let r := example.request "GET" "/api/users/42" in
  exists svc rest first others,
    no_slash svc = true
    /\ strings.TrimPrefix (url.Path (http.URL r)) "/"
       = "api/" ++ svc ++ "/" ++ rest
    /\ healthy_instances
         (example.registry_of [example.users_sick; example.users_up])
         (svc ++ "-service") = first :: others
    /\ consulapi.healthy first = true
    /\ consulapi.Name (consulapi.Service first) = svc ++ "-service"
    /\ example.url_Parse (endpoint first)
       = Ok (url.mkURL "http" "h1:8081" EmptyString EmptyString
                       EmptyString EmptyString)
    /\ url.Path (http.URL (http.set_URL_Path r "/42")) = "/" ++ rest.
Proof.
  intros r.
  apply (forward_only_to_first_healthy
           unit example.url_Parse
           (example.always (example.reply 200 "ok")) r
           (mkWorld
              (example.registry_of [example.users_sick; example.users_up])
              tt)).
  left. reflexivity.
Defined.

Lemma not_forwarded_world_unchanged_witness :
  let w := mkWorld (example.registry_of [example.users_up]) 7 in
  world (routeRequest example.url_Parse example.counting
                      (example.request "GET" "/api/users") w) = w.
Proof.
  intros w.
  apply (not_forwarded_world_unchanged nat example.url_Parse
                                       example.counting).
  reflexivity.
Defined.

Lemma queries_are_passing_only_witness :
  let run :=
    routeRequest example.url_Parse
                 (example.always (example.reply 200 "ok"))
                 (example.request "GET" "/api/products/7")
                 (mkWorld (example.registry_of [example.products_up]) tt) in
  exists name fwd,
    parse "/api/products/7" = inr (name, fwd)
    /\ queried (events run) = [name].
Proof.
  intros run.
  apply (queries_are_passing_only
           unit example.url_Parse
           (example.always (example.reply 200 "ok"))
           (example.request "GET" "/api/products/7")
           (mkWorld (example.registry_of [example.products_up]) tt)).
  discriminate.
Defined.

Lemma discoverService_first_match_sticky_witness :
  value (discoverService
           example.url_Parse "users-service"
           (mkWorld (example.registry_of
                       [example.users_up;
                        {| consulapi.Service :=
                             example.instance "users-service" "h9" 9000;
                           consulapi.healthy := true |}]) tt))
  = value (discoverService
             example.url_Parse "users-service"
             (mkWorld (example.registry_of [example.users_up]) tt)).
Proof.
  apply (discoverService_first_match_sticky
           unit example.url_Parse "users-service" None (fun _ => None)
           [example.users_up]
           [{| consulapi.Service :=
                 example.instance "users-service" "h9" 9000;
               consulapi.healthy := true |}] tt).
  discriminate.
Defined.

Lemma handleGRPCError_status_tells_code_witness :
  codes.AlreadyExists = 6%N.
Proof.
  apply (handleGRPCError_status_tells_code
           codes.AlreadyExists 6%N "taken" "duplicate");
    [reflexivity | discriminate].
Defined.

Lemma users_register_probe_resolve_witness :
  let reg := example.registry_of [example.users_sick] in
  let run := users_service.registerWithConsul (Ok "h1") None reg in
  reg_err run = None
  /\ is_Err (value (discoverService
                      example.url_Parse "users-service"
                      (mkWorld (reg_registry run) tt))) = true
  /\ value (discoverService
              example.url_Parse "users-service"
              (mkWorld (agent.check_result
                          "users-service-h1"
                          (http.StatusCode users_service.handleHealthCheck)
                          (reg_registry run)) tt))
     = example.url_Parse "http://h1:8081".
Proof.
  intros reg run.
  apply (users_register_probe_resolve
           unit example.url_Parse "h1" reg tt); reflexivity.
Defined.

Lemma registered_users_request_forwarded_witness :
  let reg := example.registry_of [example.users_sick] in
  let r := example.request "GET" "/api/users/users/42" in
  let run :=
    routeRequest
      example.url_Parse (example.always (example.reply 200 "ok")) r
      (mkWorld
         (agent.check_result
            "users-service-h1"
            (http.StatusCode users_service.handleHealthCheck)
            (reg_registry
               (users_service.registerWithConsul (Ok "h1") None reg)))
         tt) in
  queried (events run) = ["users-service"]
  /\ forwarded (events run)
     = [(url.mkURL "http" "h1:8081" EmptyString EmptyString
                   EmptyString EmptyString,
         http.set_URL_Path r "/users/42")].
Proof.
  intros reg r run.
  apply (registered_users_request_forwarded
           unit example.url_Parse
           (example.always (example.reply 200 "ok"))
           "h1" reg tt r "users/42"); reflexivity.
Defined.

Lemma users_and_products_coexist_witness :
  let reg := example.registry_of [example.users_sick] in
  let users_up :=
    agent.check_result
      "users-service-h1"
      (http.StatusCode users_service.handleHealthCheck)
      (reg_registry (users_service.registerWithConsul (Ok "h1") None reg)) in
  let both_up :=
    agent.check_result
      "products-service-h1"
      (http.StatusCode products_service.handleHealthStatus)
      (reg_registry
         (products_service.registerWithConsul (Ok "h1") None users_up)) in
  value (discoverService example.url_Parse "users-service"
                         (mkWorld both_up tt))
  = example.url_Parse "http://h1:8081"
  /\ value (discoverService example.url_Parse "products-service"
                            (mkWorld both_up tt))
     = example.url_Parse "http://h1:8082".
Proof.
  intros reg users_up both_up.
  apply (users_and_products_coexist unit example.url_Parse "h1" reg tt);
    reflexivity.
Defined.
